(** * EnviadorEmails_PYN25: the e-mail campaign of [main.py]

    A shallow embedding of the campaign pipeline of [src/main.py]
    (parser, history store, message template, orchestrator) and the
    properties of it that the specification states.

    Conventions.
    - A Python [str] is a Rocq [string] holding its UTF-8 bytes (every file
      is opened with [encoding='utf-8']).
    - A Python exception is a value [Raise e] of the type [Result].
    - A [dict] with string keys is a [gmap string _]; [d.get(k, v)] is
      [default v (d !! k)].
    - Calls to the outside (SMTP, the clock, the spreadsheet download, the
      operator's keyboard) are answered by oracles, which are the variables
      of the section [Campaign]; every such call is written to a trace. *)

From Stdlib Require Import ZArith NArith Ascii String List Bool Lia.
From Stdlib Require Import DecimalString.
From stdpp Require Import base option list strings gmap fin_maps.

Local Open Scope string_scope.
Local Open Scope list_scope.

(** ** Results and exceptions *)

Inductive exn : Type :=
| AttributeError
| TypeError
| KeyError (key : string)
| IndexError
| ValueError
| DownloadError.

Inductive Result (A : Type) : Type :=
| Ok (a : A)
| Raise (e : exn).

Arguments Ok {A} a.
Arguments Raise {A} e.

#[global] Instance result_ret : MRet Result := @Ok.

#[global] Instance result_bind : MBind Result := fun A B k r =>
  match r with
  | Ok a => k a
  | Raise e => Raise e
  end.

(** ** Python strings *)

Module PyStr.

Definition nl : string := String "010" "".
Definition dquote : string := String "034" "".

Definition code (a : ascii) : N := N_of_ascii a.

Definition between (lo hi : N) (a : ascii) : bool :=
  ((lo <=? code a) && (code a <=? hi))%N.

(** [c in s] for a one-character [c]. *)
Fixpoint contains (c : ascii) (s : string) : bool :=
  match s with
  | "" => false
  | String a s' => Ascii.eqb a c || contains c s'
  end.

(** [bool(s)]: a string is true when it is not empty. *)
Definition truthy (s : string) : bool :=
  match s with "" => false | _ => true end.

(** The characters for which [str.isspace] holds, by the length of their
    UTF-8 encoding: U+0009..000D, U+001C..001F, U+0020; U+0085, U+00A0;
    U+1680, U+2000..200A, U+2028, U+2029, U+202F, U+205F, U+3000. *)
Definition space1 (a : ascii) : bool :=
  between 9 13 a || between 28 31 a || (code a =? 32)%N.

Definition space2 (a b : ascii) : bool :=
  (code a =? 194)%N && ((code b =? 133) || (code b =? 160))%N.

Definition space3 (a b c : ascii) : bool :=
  ((code a =? 225) && (code b =? 154) && (code c =? 128))%N
  || ((code a =? 226) && (code b =? 128)
      && (between 128 138 c || between 168 169 c || (code c =? 175)))%N
  || ((code a =? 226) && (code b =? 129) && (code c =? 159))%N
  || ((code a =? 227) && (code b =? 128) && (code c =? 128))%N.

(** [s.lstrip()] *)
Fixpoint lstrip (s : string) : string :=
  match s with
  | "" => ""
  | String a s1 =>
      if space1 a then lstrip s1 else
      match s1 with
      | "" => s
      | String b s2 =>
          if space2 a b then lstrip s2 else
          match s2 with
          | "" => s
          | String c s3 => if space3 a b c then lstrip s3 else s
          end
      end
  end.

(** [lstrip] on the reversed string: the encodings are read backwards. *)
Fixpoint lstrip_rev (s : string) : string :=
  match s with
  | "" => ""
  | String a s1 =>
      if space1 a then lstrip_rev s1 else
      match s1 with
      | "" => s
      | String b s2 =>
          if space2 b a then lstrip_rev s2 else
          match s2 with
          | "" => s
          | String c s3 => if space3 c b a then lstrip_rev s3 else s
          end
      end
  end.

(** [s.rstrip()] *)
Definition rstrip (s : string) : string :=
  String.rev (lstrip_rev (String.rev s)).

(** [s.strip()] *)
Definition strip (s : string) : string := rstrip (lstrip s).

(** [s.split(c)] for a one-character separator: every occurrence
    splits, empty pieces are kept. *)
Fixpoint split (c : ascii) (s : string) : list string :=
  match s with
  | "" => [""]
  | String a s' =>
      if Ascii.eqb a c then "" :: split c s'
      else match split c s' with
           | [] => [String a ""]
           | piece :: rest => String a piece :: rest
           end
  end.

(** [sep.join(l)] *)
Definition join (sep : string) (l : list string) : string :=
  String.concat sep l.

(** [s.lower()] on the letters A..Z. The case table of the other
    characters belongs to the Python runtime; no character outside A..Z
    is mapped by it into the letters of the words compared with below
    ("tutorial", "s"): the Kelvin sign goes to "k", and U+0130 to "i"
    followed by U+0307. *)
Definition lower_ascii (a : ascii) : ascii :=
  if between 65 90 a then ascii_of_N (code a + 32) else a.

Fixpoint lower (s : string) : string :=
  match s with
  | "" => ""
  | String a s' => String (lower_ascii a) (lower s')
  end.

(** [str(n)] for a natural number. *)
Definition of_nat (n : nat) : string :=
  NilEmpty.string_of_uint (Nat.to_uint n).

(** The characters of a string, as Python iterates them: a byte that is
    not a continuation byte (10xxxxxx) starts a character. *)
Fixpoint chars_go (cur : string) (s : string) : list string :=
  match s with
  | "" => [String.rev cur]
  | String a s' =>
      if between 128 191 a then chars_go (String a cur) s'
      else String.rev cur :: chars_go (String a "") s'
  end.

Definition chars (s : string) : list string :=
  match s with
  | "" => []
  | String a s' => chars_go (String a "") s'
  end.

End PyStr.

(** ** The record model *)

Inductive ActivityType : Type :=
| PALESTRA
| TUTORIAL.

(** [ActivityType.value] *)
Definition value (t : ActivityType) : string :=
  match t with
  | PALESTRA => "palestra"
  | TUTORIAL => "tutorial"
  end.

Record Speaker : Type := mkSpeaker {
  name : string;
  email : string;
  title : string;
  theme : string;
  all_authors : string;
  activity_type : ActivityType
}.

Definition is_tutorial (s : Speaker) : bool :=
  match activity_type s with
  | TUTORIAL => true
  | PALESTRA => false
  end.

Definition activity_display_name (s : Speaker) : string :=
  value (activity_type s).

(** ** Configuration *)

Record EmailConfig : Type := mkEmailConfig {
  smtp_server : string;
  smtp_port : Z;
  sender_email : string;
  sender_password : string;
  sender_name : string;
  sheet_url : string
}.

(** [EmailConfig.validate]: the list of diagnostics, in the order in which
    the settings are checked. *)
Definition validate (c : EmailConfig) : list string :=
  let errors := [] in
  let errors :=
    if negb (PyStr.truthy (sender_email c))
    then errors ++ ["Email do remetente (GMAIL_EMAIL) não configurado"]
    else errors in
  let errors :=
    if negb (PyStr.truthy (sender_password c))
    then errors ++ ["Senha do remetente (GMAIL_APP_PASSWORD) não configurada"]
    else errors in
  let errors :=
    if negb (PyStr.truthy (sheet_url c))
    then errors ++ ["URL da planilha (SHEET_URL) não configurada"]
    else errors in
  errors.

(** ** The parser of spreadsheet rows *)

Module CsvParser.

(** A row of [csv.DictReader], at the type [Dict[str, str]] that
    [_parse_row] declares for it. *)
Abbreviation Row := (gmap string string).

(** [row.get(k, '')] *)
Definition get (row : Row) (k : string) : string := default "" (row !! k).

(** The loop [for i in range(1, 4)] with [authors.append]. *)
Fixpoint _extract_authors_loop (row : Row) (range : list nat)
    (authors : list string) : list string :=
  match range with
  | [] => authors
  | i :: range' =>
      let author := PyStr.strip (get row ("AUTOR" +:+ PyStr.of_nat i)) in
      if PyStr.truthy author
      then _extract_authors_loop row range' (authors ++ [author])
      else _extract_authors_loop row range' authors
  end.

Definition _extract_authors (row : Row) : list string :=
  _extract_authors_loop row (seq 1 3) [].

Definition _get_activity_type (activity : string) : ActivityType :=
  if String.eqb (PyStr.lower activity) "tutorial" then TUTORIAL else PALESTRA.

Definition _parse_emails (email : string) : list string :=
  if PyStr.contains "," email
  then map PyStr.strip (PyStr.split "," email)
  else [email].

(** [l[i]], which raises [IndexError] out of range. *)
Definition index {A} (l : list A) (i : nat) : Result A :=
  match l !! i with
  | Some x => Ok x
  | None => Raise IndexError
  end.

(** The loop [for i, individual_email in enumerate(emails)] of
    [_parse_row]; [i] is the index of the head of [emails], [speakers]
    the list built so far. *)
Fixpoint _parse_row_loop (authors : list string) (theme : string)
    (activity_type : ActivityType) (i : nat) (emails : list string)
    (speakers : list Speaker) : Result (list Speaker) :=
  match emails with
  | [] => Ok speakers
  | individual_email :: emails' =>
      if PyStr.contains "@" individual_email then
        author_name ← (if (i <? length authors)%nat then index authors i
                       else index authors 0);
        joined ← (if (1 <? length authors)%nat then Ok (PyStr.join ", " authors)
                  else index authors 0);
        _parse_row_loop authors theme activity_type (S i) emails'
          (speakers ++ [mkSpeaker author_name individual_email theme theme
                          joined activity_type])
      else
        _parse_row_loop authors theme activity_type (S i) emails' speakers
  end.

Definition _parse_row (row : Row) : Result (list Speaker) :=
  let activity := PyStr.strip (get row "ATIVIDADE") in
  let theme := PyStr.strip (get row "TEMA") in
  let email := PyStr.strip (get row "EMAIL") in
  let authors := _extract_authors row in
  if negb (PyStr.truthy activity && PyStr.truthy theme && PyStr.truthy email
           && match authors with [] => false | _ => true end)
  then Ok []
  else
    let activity_type := _get_activity_type activity in
    let emails := _parse_emails email in
    _parse_row_loop authors theme activity_type 0 emails [].

(** [parse], on the rows that [csv.DictReader] reads from the file:
    [speakers.extend(parsed_speakers)] row after row. *)
Fixpoint parse_loop (rows : list Row) (speakers : list Speaker)
    : Result (list Speaker) :=
  match rows with
  | [] => Ok speakers
  | row :: rows' =>
      parsed_speakers ← _parse_row row;
      parse_loop rows' (speakers ++ parsed_speakers)
  end.

Definition parse (rows : list Row) : Result (list Speaker) :=
  parse_loop rows [].

End CsvParser.

(** ** The message template *)

Module PyFormat.

(** The keyword arguments of [str.format], in the order of the [dict]. *)
Abbreviation Context := (list (string * string)).

(** [context[key]] *)
Fixpoint lookup (context : Context) (key : string) : Result string :=
  match context with
  | [] => Raise (KeyError key)
  | (k, v) :: context' =>
      if String.eqb k key then Ok v else lookup context' key
  end.

(** [template.format] applied to the keyword arguments [context], for
    templates whose replacement fields are plain names, as all fields of [TEMPLATE] are. Outside a field
    ([field = None]) characters are copied and the doubled braces stand
    for one brace; inside a field ([field = Some acc]) the name is
    collected, in reverse, up to the closing brace. *)
Fixpoint format_go (context : Context) (s : string) (field : option string)
    : Result string :=
  match s with
  | "" =>
      match field with
      | None => Ok ""
      | Some _ => Raise ValueError
      end
  | String a s' =>
      match field with
      | Some acc =>
          if Ascii.eqb a "}" then
            v ← lookup context (String.rev acc);
            rest ← format_go context s' None;
            Ok (v +:+ rest)
          else format_go context s' (Some (String a acc))
      | None =>
          if Ascii.eqb a "{" then
            match s' with
            | String "{" s'' =>
                rest ← format_go context s'' None; Ok (String "{" rest)
            | _ => format_go context s' (Some "")
            end
          else if Ascii.eqb a "}" then
            match s' with
            | String "}" s'' =>
                rest ← format_go context s'' None; Ok (String "}" rest)
            | _ => Raise ValueError
            end
          else rest ← format_go context s' None; Ok (String a rest)
      end
  end.

Definition format (template : string) (context : Context) : Result string :=
  format_go context template None.

End PyFormat.

Module EmailTemplate.

Definition TEMPLATE : string :=
  "Prezad@ {name},

    É com grande satisfação que informamos que {article} {activity}, " +:+ PyStr.dquote +:+
  "{title}" +:+ PyStr.dquote +:+
  ", foi aprovad{approval_suffix} para a conferência! 🚀

O evento acontecerá nos dias 04, 05 e 06 de julho de 2025, em Belém do Pará, e contará com a participação de entusiastas, desenvolvedores e especialistas em Python de todo o país. Sua contribuição será fundamental para enriquecer nossa programação!

Próximos passos:

Para confirmar sua participação como {role}, pedimos que nos envie sua confirmação até o dia 10/06/2025 respondendo a este e-mail.

Caso não recebamos sua confirmação até essa data, entenderemos que não há disponibilidade e sua vaga poderá ser realocada.

Informações importantes:

📅 Datas do evento: 04, 05 e 06 de julho de 2025
📍 Local: Belém - PA
⏰ {duration_label}: 45 minutos
🎯 Tema: {theme}
{coauthors_info}

Ficamos à disposição para qualquer dúvida e ansiosos pela sua confirmação!

Atenciosamente,
    Equipe Organizadora
    Contato: contato@evento.org | Site: https://evento.org".

Definition _build_context (speaker : Speaker) : PyFormat.Context :=
  let is_tutorial := is_tutorial speaker in
  let coauthors_info := "" in
  let coauthors_info :=
    if PyStr.contains "," (all_authors speaker)
    then PyStr.nl +:+ "👥 Coautores: " +:+ all_authors speaker
    else coauthors_info in
  [ ("name", name speaker);
    ("title", title speaker);
    ("theme", theme speaker);
    ("activity", activity_display_name speaker);
    ("article", if is_tutorial then "seu" else "sua");
    ("approval_suffix", if is_tutorial then "o" else "a");
    ("role", if is_tutorial then "instrutor(a) de tutorial" else "palestrante");
    ("duration_label",
      if is_tutorial then "Duração do tutorial" else "Duração da palestra");
    ("coauthors_info", coauthors_info) ].

Definition render (speaker : Speaker) : Result string :=
  let context := _build_context speaker in
  PyFormat.format TEMPLATE context.

End EmailTemplate.

(** ** JSON values and Python sets *)

(** What [json.load] returns: [None], [bool], [int], [str], [list] and
    [dict]. A number is an integer, as [json.load] reads a number written
    without fraction and exponent; the other numbers (Python floats) are
    not part of the model. *)
#[warnings="-register-all"]
Inductive json : Type :=
| JNull
| JBool (b : bool)
| JInt (z : Z)
| JStr (s : string)
| JArr (l : list json)
| JObj (m : gmap string json).

Module PySet.

(** Lists and dicts cannot be hashed: adding one to a set raises
    [TypeError]. *)
Definition hashable (x : json) : bool :=
  match x with
  | JArr _ | JObj _ => false
  | _ => true
  end.

(** [x == y] on hashable values; [True == 1] and [False == 0]. *)
Definition py_eqb (x y : json) : bool :=
  match x, y with
  | JNull, JNull => true
  | JBool a, JBool b => Bool.eqb a b
  | JBool a, JInt z => (z =? (if a then 1 else 0))%Z
  | JInt z, JBool a => (z =? (if a then 1 else 0))%Z
  | JInt a, JInt b => (a =? b)%Z
  | JStr a, JStr b => String.eqb a b
  | _, _ => false
  end.

(** A [set] is the list of its elements, in the order in which they came
    in; the order in which Python enumerates a set is not specified, and
    nothing below depends on it. *)
Abbreviation t := (list json).

(** [x in s] *)
Definition mem (x : json) (s : t) : bool := existsb (py_eqb x) s.

(** [s.add(x)] for a hashable [x]: an element equal to [x] stays. *)
Definition insert (x : json) (s : t) : t :=
  if mem x s then s else s ++ [x].

(** [s.add(x)] *)
Definition add (x : json) (s : t) : Result t :=
  if hashable x then Ok (insert x s) else Raise TypeError.

(** [for x in j]: the elements of a list, the characters of a string, the
    keys of a dict; the other values cannot be iterated. *)
Definition iter (j : json) : Result (list json) :=
  match j with
  | JArr l => Ok l
  | JStr s => Ok (map JStr (PyStr.chars s))
  | JObj m => Ok (map (fun kv => JStr (fst kv)) (map_to_list m))
  | _ => Raise TypeError
  end.

Fixpoint add_all (l : list json) (s : t) : Result t :=
  match l with
  | [] => Ok s
  | x :: l' => s' ← add x s; add_all l' s'
  end.

(** [set(j)] *)
Definition of_json (j : json) : Result t :=
  l ← iter j; add_all l [].

End PySet.

(** ** The state of a run *)

(** The history file [data/campaign_history.json]: a file that holds the
    text of a JSON value is identified with that value ([json.dump]
    followed by [json.load] gives the value back); [Unparsable] stands for
    every content that [json.load] rejects. *)
Inductive FileState : Type :=
| Absent
| Unparsable
| Content (j : json).

Inductive Level : Type := INFO | ERROR.

(** The calls a run makes to its surroundings and components. *)
Inductive Event : Type :=
| Log (level : Level) (message : string)
| Printed (text : string)
| Input (prompt : string)
| Download (url : string)
| Render (speaker : Speaker)
| Send (speaker : Speaker) (body : string) (delivered : bool)
| Save (speaker : Speaker)
| WriteFile (j : json)
| Sleep (seconds : nat).

Record State : Type := mkState {
  file : FileState;        (* the history file *)
  _data : json;            (* [JsonDataStore._data] *)
  sent_titles : PySet.t;   (* [EmailCampaignManager.sent_titles] *)
  clock : nat;             (* readings of [datetime.now()] so far *)
  sends : nat;             (* calls of [smtplib] so far *)
  trace : list Event
}.

Definition set_file (f : FileState) (s : State) : State :=
  mkState f (_data s) (sent_titles s) (clock s) (sends s) (trace s).
Definition set_data (d : json) (s : State) : State :=
  mkState (file s) d (sent_titles s) (clock s) (sends s) (trace s).
Definition set_sent_titles (t : PySet.t) (s : State) : State :=
  mkState (file s) (_data s) t (clock s) (sends s) (trace s).
Definition set_clock (n : nat) (s : State) : State :=
  mkState (file s) (_data s) (sent_titles s) n (sends s) (trace s).
Definition set_sends (n : nat) (s : State) : State :=
  mkState (file s) (_data s) (sent_titles s) (clock s) n (trace s).
Definition set_trace (t : list Event) (s : State) : State :=
  mkState (file s) (_data s) (sent_titles s) (clock s) (sends s) t.

(** Computations that read and write the state and may raise. *)
Definition M (A : Type) : Type := State → Result A * State.

#[global] Instance M_ret : MRet M := fun A a s => (Ok a, s).

#[global] Instance M_bind : MBind M := fun A B k m s =>
  match m s with
  | (Ok a, s') => k a s'
  | (Raise e, s') => (Raise e, s')
  end.

Definition raise {A} (e : exn) : M A := fun s => (Raise e, s).

Definition lift {A} (r : Result A) : M A := fun s => (r, s).

Definition gets {A} (f : State → A) : M A := fun s => (Ok (f s), s).

Definition modify (f : State → State) : M unit := fun s => (Ok tt, f s).

Definition emit (e : Event) : M unit :=
  modify (fun s => set_trace (trace s ++ [e]) s).

(** [try: body / except Exception as e: handler e] *)
Definition try_except {A} (body : M A) (handler : exn → M A) : M A :=
  fun s =>
    match body s with
    | (Ok a, s') => (Ok a, s')
    | (Raise e, s') => handler e s'
    end.

(** ** The history store, the mail service and the campaign manager *)

Section Campaign.

(** [datetime.now().isoformat()], by the number of earlier readings. *)
Variable now : nat → string.

(** The SMTP session of [EmailService.send], by the number of earlier
    sessions: [None] when the message went out, [Some text] when an
    exception with that text was raised. *)
Variable smtp : nat → Speaker → string → option string.

(** [SpreadsheetDownloader.download] followed by the [csv.DictReader] of
    [CsvParser.parse]: the rows of the sheet, or the exception raised. *)
Variable spreadsheet : string → Result (list CsvParser.Row).

(** The line the operator types at the prompt of [_confirm_send]. *)
Variable keyboard : string.

(** [str(e)] for an exception. *)
Variable exn_text : exn → string.

Variable config : EmailConfig.

Definition log_info (message : string) : M unit := emit (Log INFO message).
Definition log_error (message : string) : M unit := emit (Log ERROR message).

Definition datetime_now : M string :=
  n ← gets clock;
  modify (set_clock (S n));;
  mret (now n).

(** *** JsonDataStore *)

Definition empty_history : json :=
  JObj (<["sent_titles" := JArr []]> (<["details" := JArr []]> ∅)).

Definition _load_data (f : FileState) : json :=
  match f with
  | Absent => empty_history
  | Unparsable => empty_history
  | Content j => j
  end.

(** [JsonDataStore.__init__] *)
Definition JsonDataStore_init : M unit :=
  f ← gets file;
  modify (set_data (_load_data f)).

(** The body of the loop [for detail in self._data['details']]. *)
Definition load_detail (sent_titles : PySet.t) (detail : json)
    : Result PySet.t :=
  match detail with
  | JObj d =>
      match d !! "titulo" with
      | Some titulo => PySet.add titulo sent_titles
      | None => Ok sent_titles
      end
  | _ => Ok sent_titles
  end.

Fixpoint load_details (details : list json) (sent_titles : PySet.t)
    : Result PySet.t :=
  match details with
  | [] => Ok sent_titles
  | detail :: details' =>
      sent_titles' ← load_detail sent_titles detail;
      load_details details' sent_titles'
  end.

(** [JsonDataStore.load] on the value of [self._data]. Only a dict has
    the method [get]. *)
Definition load_data (data : json) : Result PySet.t :=
  match data with
  | JObj m =>
      sent_titles ← PySet.of_json (default (JArr []) (m !! "sent_titles"));
      match sent_titles, m !! "details" with
      | [], Some details =>
          l ← PySet.iter details;
          load_details l sent_titles
      | _, _ => Ok sent_titles
      end
  | _ => Raise AttributeError
  end.

Definition load : M PySet.t :=
  data ← gets _data;
  lift (load_data data).

(** [self._data[key] = v] *)
Definition data_setitem (key : string) (v : json) : M unit :=
  data ← gets _data;
  match data with
  | JObj m => modify (set_data (JObj (<[key := v]> m)))
  | _ => raise TypeError
  end.

(** [key in self._data], after [load] has found a dict. *)
Definition data_contains (key : string) : M bool :=
  data ← gets _data;
  match data with
  | JObj m => mret (bool_decide (is_Some (m !! key)))
  | _ => raise TypeError
  end.

(** [self._data[key]] *)
Definition data_getitem (key : string) : M json :=
  data ← gets _data;
  match data with
  | JObj m =>
      match m !! key with
      | Some v => mret v
      | None => raise (KeyError key)
      end
  | _ => raise TypeError
  end.

(** [json.dump(self._data, f)] into the history file. *)
Definition write_file : M unit :=
  data ← gets _data;
  emit (WriteFile data);;
  modify (set_file (Content data)).

Definition history_entry (speaker : Speaker) (timestamp : string) : json :=
  JObj (<["email" := JStr (email speaker)]>
       (<["nome" := JStr (name speaker)]>
       (<["titulo" := JStr (title speaker)]>
       (<["timestamp" := JStr timestamp]> ∅)))).

(** [JsonDataStore.save]. The method [append] is looked up before its
    argument is built: when [details] is not a list the second reading
    of the clock does not happen. *)
Definition save (speaker : Speaker) : M unit :=
  sent_titles ← load;
  let sent_titles := PySet.insert (JStr (title speaker)) sent_titles in
  data_setitem "sent_titles" (JArr sent_titles);;
  last_update ← datetime_now;
  data_setitem "last_update" (JStr last_update);;
  has_details ← data_contains "details";
  (if negb has_details then data_setitem "details" (JArr []) else mret tt);;
  details ← data_getitem "details";
  match details with
  | JArr l =>
      timestamp ← datetime_now;
      data_setitem "details" (JArr (l ++ [history_entry speaker timestamp]));;
      write_file
  | _ => raise AttributeError
  end.

(** *** EmailService *)

(** [EmailService.send]: one SMTP session; a failure is logged and
    reported as [False]. *)
Definition send (speaker : Speaker) (body : string) : M bool :=
  n ← gets sends;
  modify (set_sends (S n));;
  match smtp n speaker body with
  | None => emit (Send speaker body true);; mret true
  | Some e =>
      emit (Send speaker body false);;
      log_error ("Falha ao enviar e-mail para " +:+ email speaker
                 +:+ ": " +:+ e);;
      mret false
  end.

(** *** EmailCampaignManager *)

(** [EmailCampaignManager.__init__] *)
Definition EmailCampaignManager_init : M unit :=
  titles ← load;
  modify (set_sent_titles titles).

(** [title in self.sent_titles] *)
Definition is_sent (speaker_title : string) : M bool :=
  titles ← gets sent_titles;
  mret (PySet.mem (JStr speaker_title) titles).

(** [self.sent_titles.add(title)] *)
Definition mark_sent (speaker_title : string) : M unit :=
  titles ← gets sent_titles;
  modify (set_sent_titles (PySet.insert (JStr speaker_title) titles)).

Definition _send_to_speaker (speaker : Speaker) (dry_run : bool) : M bool :=
  already ← is_sent (title speaker);
  if (already : bool) return M bool then
    log_info ("Tema '" +:+ title speaker +:+ "' já enviado");;
    mret true
  else
    emit (Render speaker);;
    body ← lift (EmailTemplate.render speaker);
    if dry_run return M bool then
      log_info ("[MODO TESTE] Enviaria '" +:+ title speaker +:+ "' para: "
                +:+ name speaker +:+ " <" +:+ email speaker +:+ ">");;
      mret true
    else
      delivered ← send speaker body;
      if (delivered : bool) return M bool then
        log_info ("✅ Enviado '" +:+ title speaker +:+ "' para: "
                  +:+ name speaker +:+ " <" +:+ email speaker +:+ ">");;
        emit (Save speaker);;
        save speaker;;
        mark_sent (title speaker);;
        mret true
      else mret false.

Definition processing_line (i total : nat) (speaker : Speaker) : string :=
  PyStr.nl +:+ "[" +:+ PyStr.of_nat i +:+ "/" +:+ PyStr.of_nat total
  +:+ "] Processando " +:+ name speaker +:+ "...".

Definition _display_summary (success failures : nat) : M unit :=
  log_info (PyStr.nl +:+ "==================================================");;
  log_info "📊 RESUMO:";;
  log_info ("✅ Enviados com sucesso: " +:+ PyStr.of_nat success);;
  log_info ("❌ Falhas: " +:+ PyStr.of_nat failures).

(** The loop [for i, speaker in enumerate(speakers, 1)] of
    [_process_speakers]: [total] is [len(speakers)], [i] the number of
    the head of [rest]; the counters are returned. *)
Fixpoint _process_speakers_loop (total : nat) (dry_run : bool) (i : nat)
    (rest : list Speaker) (success failures : nat) : M (nat * nat) :=
  match rest with
  | [] => mret (success, failures)
  | speaker :: rest' =>
      log_info (processing_line i total speaker);;
      ok ← _send_to_speaker speaker dry_run;
      let success := if (ok : bool) then S success else success in
      let failures := if (ok : bool) then failures else S failures in
      (if negb dry_run && (i <? total)%nat then emit (Sleep 2) else mret tt);;
      _process_speakers_loop total dry_run (S i) rest' success failures
  end.

Definition _process_speakers (speakers : list Speaker) (dry_run : bool)
    : M unit :=
  counts ← _process_speakers_loop (length speakers) dry_run 1 speakers 0 0;
  _display_summary (fst (counts : nat * nat)) (snd counts).

Definition _filter_new_speakers (speakers : list Speaker)
    : M (list Speaker) :=
  titles ← gets sent_titles;
  mret (filter (fun sp => PySet.mem (JStr (title sp)) titles = false)
          speakers).

(** [_calculate_stats] and [CampaignStats.display] *)
Definition display_stats (all_speakers new_speakers : list Speaker)
    : M unit :=
  titles ← gets sent_titles;
  log_info ("📊 Total de palestrantes identificados: "
            +:+ PyStr.of_nat (length all_speakers));;
  log_info ("📧 Novas comunicações a serem enviadas: "
            +:+ PyStr.of_nat (length new_speakers));;
  log_info ("✅ Temas já processados: " +:+ PyStr.of_nat (length titles)).

Definition _confirm_send (count : nat) : M bool :=
  emit (Printed (PyStr.nl +:+ "⚠️  ATENÇÃO: " +:+ PyStr.of_nat count
               +:+ " e-mails serão enviados!"));;
  emit (Input "Continuar? (s/N): ");;
  let response := PyStr.lower (PyStr.strip keyboard) in
  mret (String.eqb response "s").

Fixpoint log_errors (errors : list string) : M unit :=
  match errors with
  | [] => mret tt
  | error :: errors' => log_error ("❌ " +:+ error);; log_errors errors'
  end.

(** [EmailCampaignManager.run] *)
Definition run (dry_run : bool) : M unit :=
  log_info "🐍 Iniciando campanha de e-mails - Python Norte 2025";;
  let validation_errors := validate config in
  match validation_errors with
  | _ :: _ => log_errors validation_errors
  | [] =>
      try_except
        (emit (Download (sheet_url config));;
         rows ← lift (spreadsheet (sheet_url config));
         speakers ← lift (CsvParser.parse rows);
         new_speakers ← _filter_new_speakers speakers;
         display_stats speakers new_speakers;;
         match new_speakers with
         | [] => log_info "Nenhuma nova comunicação para enviar!"
         | _ :: _ =>
             proceed ← (if dry_run then mret true
                        else _confirm_send (length new_speakers));
             if (proceed : bool) return M unit
             then _process_speakers new_speakers dry_run
             else mret tt
         end)
        (fun e =>
           log_error ("Erro na campanha: " +:+ exn_text e);;
           raise e)
  end.

End Campaign.

(** * Definitions used to state the properties *)

(** ** Rows, records, configurations and states of the examples *)

(** The row of the specification: one author, two addresses. *)
Definition row_alice : CsvParser.Row :=
  <["ATIVIDADE" := "Palestra"]> (<["TEMA" := " Async Patterns "]>
  (<["AUTOR1" := "Alice"]> (<["EMAIL" := "a@x.com, b@y.com"]> ∅))).


(** A row with one author, whose name is written with a comma. *)
Definition row_comma : CsvParser.Row :=
  <["ATIVIDADE" := "Palestra"]> (<["TEMA" := "Tipos em Python"]>
  (<["AUTOR1" := "Silva, Ana"]> (<["EMAIL" := "ana@x.com"]> ∅))).

(** A row with two authors and two addresses. *)
Definition row_two_authors : CsvParser.Row :=
  <["ATIVIDADE" := "Tutorial"]> (<["TEMA" := "Intro to Types"]>
  (<["AUTOR1" := "Carl"]> (<["AUTOR2" := "Dee"]>
  (<["EMAIL" := "carl@x.com,dee@y.com"]> ∅)))).

(** Two records of one submission. *)
Definition alice_talk : Speaker :=
  mkSpeaker "Alice" "a@x.com" "Async Patterns" "Async Patterns" "Alice" PALESTRA.

Definition bob_talk : Speaker :=
  mkSpeaker "Bob" "b@y.com" "Async Patterns" "Async Patterns" "Alice, Bob"
    PALESTRA.

(** The record of [row_comma]. *)
Definition ana_talk : Speaker :=
  mkSpeaker "Silva, Ana" "ana@x.com" "Tipos em Python" "Tipos em Python"
    "Silva, Ana" PALESTRA.

(** The second record of [row_two_authors]. *)
Definition dee_tutorial : Speaker :=
  mkSpeaker "Dee" "dee@y.com" "Intro to Types" "Intro to Types" "Carl, Dee"
    TUTORIAL.

(** A configuration without server name and without display name. *)
Definition config_no_server : EmailConfig :=
  mkEmailConfig "" 587 "organizacao@evento.org" "segredo" ""
    "https://docs.google.com/spreadsheets/d/abc123".

(** A configuration without password. *)
Definition config_no_password : EmailConfig :=
  mkEmailConfig "smtp.gmail.com" 587 "organizacao@evento.org" "" "Equipe"
    "https://docs.google.com/spreadsheets/d/abc123".

(** A state before any object is built: no file, nothing loaded. *)
Definition state0 : State := mkState Absent JNull [] 0 0 [].

(** The store right after its construction over a missing file. *)
Definition state_new : State := mkState Absent empty_history [] 0 0 [].

(** A history file with a key of its own and a log without a title list. *)
Definition history_v0 : json :=
  JObj (<["campanha" := JStr "PYN25"]>
       (<["details" :=
            JArr [history_entry alice_talk "2025-05-01T10:00:00"; JStr "nota";
                  JObj (<["email" := JStr "c@z.com"]> ∅)]]> ∅)).

(** The store built over that file. *)
Definition state_v0 : State := mkState (Content history_v0) history_v0 [] 0 0 [].

(** An SMTP server that refuses the first session and accepts the others. *)
Definition smtp_first_fails (n : nat) (_ : Speaker) (_ : string)
    : option string :=
  match n with
  | O => Some "timed out"
  | S _ => None
  end.

(** ** Rows *)

(** The fields of a row after trimming. *)
Definition activity_of (row : CsvParser.Row) : string :=
  PyStr.strip (CsvParser.get row "ATIVIDADE").

Definition theme_of (row : CsvParser.Row) : string :=
  PyStr.strip (CsvParser.get row "TEMA").

Definition email_of (row : CsvParser.Row) : string :=
  PyStr.strip (CsvParser.get row "EMAIL").

(** The author to whom the e-mail at position [i] is addressed. *)
Definition author_at (authors : list string) (i : nat) : option string :=
  if (i <? length authors)%nat then authors !! i else authors !! 0.

(** [all_authors] of the records of a row. *)
Definition joined_authors (authors : list string) : string :=
  if (1 <? length authors)%nat then PyStr.join ", " authors
  else default "" (authors !! 0).

(** The number of addresses with an at sign before position [i]. *)
Definition rank (emails : list string) (i : nat) : nat :=
  length (filter (λ e, PyStr.contains "@" e = true) (take i emails)).

(** ** Sets of titles and the history structure *)

(** How often the title [t0] occurs in the list of a set. *)
Definition count_key (t0 : string) (s : PySet.t) : nat :=
  length (List.filter (PySet.py_eqb (JStr t0)) s).

(** Every title occurs at most once. *)
Definition keys_once (s : PySet.t) : Prop := ∀ t0, (count_key t0 s ≤ 1)%nat.

(** What [add_all] keeps: hashable elements, each title once, and what
    was there. *)
Record good (s : PySet.t) : Prop := {
  good_hashable : Forall (λ x, PySet.hashable x = true) s;
  good_once : keys_once s
}.

(** The detail log of the loaded structure, when [save] can append to
    it: a missing key stands for the empty log. *)
Definition details_of (m : gmap string json) : option (list json) :=
  match m !! "details" with
  | None => Some []
  | Some (JArr l) => Some l
  | Some _ => None
  end.

(** The structure that [save] writes. *)
Definition saved (m : gmap string json) (titles : PySet.t)
    (details : list json) (speaker : Speaker) (t1 t2 : string)
    : gmap string json :=
  <["details" := JArr (details ++ [history_entry speaker t2])]>
    (<["last_update" := JStr t1]>
       (<["sent_titles" := JArr (PySet.insert (JStr (title speaker)) titles)]>
          m)).

(** A log entry that [load] can read: the value under [titulo], if
    there is one, can be hashed. *)
Definition entry_ok (detail : json) : Prop :=
  match detail with
  | JObj d =>
      match d !! "titulo" with
      | Some v => PySet.hashable v = true
      | None => True
      end
  | _ => True
  end.

(** ** The rendered message *)

(** The same record with another author string. *)
Definition with_authors (authors : string) (sp : Speaker) : Speaker :=
  mkSpeaker (name sp) (email sp) (title sp) (theme sp) authors
    (activity_type sp).

(** What [_build_context] puts in the place of [coauthors_info]. *)
Definition coauthors_info (sp : Speaker) : string :=
  match PyFormat.lookup (EmailTemplate._build_context sp) "coauthors_info" with
  | Ok v => v
  | Raise _ => ""
  end.

(** The end of the template, after the place of [coauthors_info]. *)
Definition closing : string :=
  PyStr.nl +:+ PyStr.nl +:+
  "Ficamos à disposição para qualquer dúvida e ansiosos pela sua confirmação!"
  +:+ PyStr.nl +:+ PyStr.nl +:+ "Atenciosamente," +:+ PyStr.nl +:+
  "    Equipe Organizadora" +:+ PyStr.nl +:+
  "    Contato: contato@evento.org | Site: https://evento.org".

(** ** Traces *)

(** The events that concern the record [sp]. *)
Definition about (sp : Speaker) (e : Event) : Prop :=
  match e with
  | Log _ _ | Sleep _ | WriteFile _ => True
  | Render sp' | Save sp' | Send sp' _ _ => sp' = sp
  | Printed _ | Input _ | Download _ => False
  end.

(** After a dispatch that succeeded, no dispatch for the same title. *)
Definition sends_once (evs : list Event) : Prop :=
  ∀ (i j : nat) (sp sp' : Speaker) (b b' : string) (ok : bool),
    (i < j)%nat →
    evs !! i = Some (Send sp b true) →
    evs !! j = Some (Send sp' b' ok) →
    title sp' ≠ title sp.


(** The events of a dry run. *)
Definition log_or_render (e : Event) : Prop :=
  match e with
  | Log _ _ | Render _ => True
  | _ => False
  end.

(** The log lines of [_send_to_speaker] and [EmailService.send]. *)
Definition already_line (sp : Speaker) : Event :=
  Log INFO ("Tema '" +:+ title sp +:+ "' já enviado").

Definition would_send_line (sp : Speaker) : Event :=
  Log INFO ("[MODO TESTE] Enviaria '" +:+ title sp +:+ "' para: "
            +:+ name sp +:+ " <" +:+ email sp +:+ ">").

Definition sent_line (sp : Speaker) : Event :=
  Log INFO ("✅ Enviado '" +:+ title sp +:+ "' para: "
            +:+ name sp +:+ " <" +:+ email sp +:+ ">").

Definition failure_line (sp : Speaker) (e : string) : Event :=
  Log ERROR ("Falha ao enviar e-mail para " +:+ email sp +:+ ": " +:+ e).

(** ** Further definitions: rows *)

(** The three author columns of a row, trimmed, in column order. *)
Definition author_columns (row : CsvParser.Row) : list string :=
  [PyStr.strip (CsvParser.get row "AUTOR1");
   PyStr.strip (CsvParser.get row "AUTOR2");
   PyStr.strip (CsvParser.get row "AUTOR3")].

(** A row whose first author column is blank. *)
Definition row_gap : CsvParser.Row :=
  <["ATIVIDADE" := "tutorial"]> (<["TEMA" := "Intro to Types"]>
  (<["AUTOR1" := "  "]> (<["AUTOR2" := " Carl "]> (<["AUTOR3" := "Dee"]>
  (<["EMAIL" := "carl@x.com, sem arroba ,dee@y.com"]> ∅))))).

(** ** Further definitions: the history store *)

(** The titles that [load] reads from a structure; nothing when it
    raises. *)
Definition stored_titles (data : json) : PySet.t :=
  match load_data data with
  | Ok titles => titles
  | Raise _ => []
  end.

(** The title [t] is in the history file: a store built over the file
    loads it. *)
Definition persisted (t : string) (s : State) : Prop :=
  PySet.mem (JStr t) (stored_titles (_load_data (file s))) = true.

(** A history file of the first layout: a log, no list of titles. *)
Definition history_log_only : json :=
  JObj (<["details" :=
            JArr [history_entry alice_talk "2025-05-01T10:00:00";
                  history_entry dee_tutorial "2025-05-01T10:00:02"]]> ∅).

Definition state_log_only : State :=
  mkState (Content history_log_only) history_log_only [] 0 0 [].



(** ** Further definitions: the message *)

(** The text of [TEMPLATE] with the values of a record in the places of
    its fields. *)
Definition message (sp : Speaker) : string :=
  "Prezad@ " +:+ name sp +:+ "," +:+ PyStr.nl +:+
  PyStr.nl +:+
  "    É com grande satisfação que informamos que " +:+ (if is_tutorial sp then "seu" else "sua") +:+ " " +:+ activity_display_name sp +:+ ", " +:+ PyStr.dquote +:+ title sp +:+ PyStr.dquote +:+ ", foi aprovad" +:+ (if is_tutorial sp then "o" else "a") +:+ " para a conferência! 🚀" +:+ PyStr.nl +:+
  PyStr.nl +:+
  "O evento acontecerá nos dias 04, 05 e 06 de julho de 2025, em Belém do Pará, e contará com a participação de entusiastas, desenvolvedores e especialistas em Python de todo o país. Sua contribuição será fundamental para enriquecer nossa programação!" +:+ PyStr.nl +:+
  PyStr.nl +:+
  "Próximos passos:" +:+ PyStr.nl +:+
  PyStr.nl +:+
  "Para confirmar sua participação como " +:+ (if is_tutorial sp then "instrutor(a) de tutorial" else "palestrante") +:+ ", pedimos que nos envie sua confirmação até o dia 10/06/2025 respondendo a este e-mail." +:+ PyStr.nl +:+
  PyStr.nl +:+
  "Caso não recebamos sua confirmação até essa data, entenderemos que não há disponibilidade e sua vaga poderá ser realocada." +:+ PyStr.nl +:+
  PyStr.nl +:+
  "Informações importantes:" +:+ PyStr.nl +:+
  PyStr.nl +:+
  "📅 Datas do evento: 04, 05 e 06 de julho de 2025" +:+ PyStr.nl +:+
  "📍 Local: Belém - PA" +:+ PyStr.nl +:+
  "⏰ " +:+ (if is_tutorial sp
   then "Duração do tutorial" else "Duração da palestra") +:+ ": 45 minutos" +:+ PyStr.nl +:+
  "🎯 Tema: " +:+ theme sp +:+ PyStr.nl +:+
  (if PyStr.contains "," (all_authors sp)
   then PyStr.nl +:+ "👥 Coautores: " +:+ all_authors sp else "") +:+ PyStr.nl +:+
  PyStr.nl +:+
  "Ficamos à disposição para qualquer dúvida e ansiosos pela sua confirmação!" +:+ PyStr.nl +:+
  PyStr.nl +:+
  "Atenciosamente," +:+ PyStr.nl +:+
  "    Equipe Organizadora" +:+ PyStr.nl +:+
  "    Contato: contato@evento.org | Site: https://evento.org".

(** A record whose title is written with braces. *)
Definition braces_talk : Speaker :=
  mkSpeaker "Eva" "eva@x.com" "Usando {name} em f-strings"
    "Usando {name} em f-strings" "Eva" PALESTRA.

(** ** Further definitions: the address of the sheet *)

Module SpreadsheetDownloader.

(** The characters of the class [[a-zA-Z0-9-_]]. *)
Definition id_char (a : ascii) : bool :=
  PyStr.between 97 122 a || PyStr.between 65 90 a || PyStr.between 48 57 a
  || (PyStr.code a =? 45)%N || (PyStr.code a =? 95)%N.

(** The longest run of such characters at the start of a string: what the
    greedy group [([a-zA-Z0-9-_]+)] takes. *)
Fixpoint take_id (s : string) : string :=
  match s with
  | "" => ""
  | String a s' => if id_char a then String a (take_id s') else ""
  end.

(** [s] without the prefix [p], when it starts with [p]. *)
Fixpoint after_prefix (p s : string) : option string :=
  match p with
  | "" => Some s
  | String a p' =>
      match s with
      | "" => None
      | String b s' => if Ascii.eqb a b then after_prefix p' s' else None
      end
  end.

(** [re.search(r'/d/([a-zA-Z0-9-_]+)', url)]: the group of the leftmost
    place where the pattern matches. *)
Fixpoint search (url : string) : option string :=
  match url with
  | "" => None
  | String _ rest =>
      match after_prefix "/d/" url with
      | Some tail =>
          if PyStr.truthy (take_id tail) then Some (take_id tail)
          else search rest
      | None => search rest
      end
  end.

Definition extract_sheet_id (url : string) : Result string :=
  match search url with
  | Some group1 => Ok group1
  | None => Raise ValueError
  end.

(** The start of [download], up to the request: the address that
    [requests.get] is called with, or the exception raised before any
    request is made. *)
Definition csv_url (sheet_url : string) : Result string :=
  sheet_id ← extract_sheet_id sheet_url;
  Ok ("https://docs.google.com/spreadsheets/d/" +:+ sheet_id
      +:+ "/export?format=csv").

End SpreadsheetDownloader.

(** ** Further definitions: runs *)

(** The dispatches of a trace that failed. *)
Definition failed_sends (evs : list Event) : nat :=
  length (List.filter (λ e, match e with
                            | Send _ _ false => true
                            | _ => false
                            end) evs).

(** The pauses of a trace. *)
Definition pauses (evs : list Event) : nat :=
  length (List.filter (λ e, match e with Sleep _ => true | _ => false end) evs).

(** The events of a run that leaves the history alone and sends
    nothing: log lines, the download and renderings. *)
Definition read_only (e : Event) : Prop :=
  match e with
  | Log _ _ | Download _ | Render _ => True
  | _ => False
  end.

(** The store holds in memory what the history file holds. *)
Definition synced (s : State) : Prop := _data s = _load_data (file s).

(** The opening line of [run]. *)
Definition start_line : Event :=
  Log INFO "🐍 Iniciando campanha de e-mails - Python Norte 2025".

(** The three lines of [CampaignStats.display]. *)
Definition stats_lines (total pending sent : nat) : list Event :=
  [Log INFO ("📊 Total de palestrantes identificados: " +:+ PyStr.of_nat total);
   Log INFO ("📧 Novas comunicações a serem enviadas: " +:+ PyStr.of_nat pending);
   Log INFO ("✅ Temas já processados: " +:+ PyStr.of_nat sent)].

(** The prompt of [_confirm_send]. *)
Definition prompt_lines (count : nat) : list Event :=
  [Printed (PyStr.nl +:+ "⚠️  ATENÇÃO: " +:+ PyStr.of_nat count
            +:+ " e-mails serão enviados!");
   Input "Continuar? (s/N): "].

(** The four lines of [_display_summary]. *)
Definition summary_lines (success failures : nat) : list Event :=
  [Log INFO (PyStr.nl +:+ "==================================================");
   Log INFO "📊 RESUMO:";
   Log INFO ("✅ Enviados com sucesso: " +:+ PyStr.of_nat success);
   Log INFO ("❌ Falhas: " +:+ PyStr.of_nat failures)].

(** The records whose title is not in the set [titles]. *)
Definition new_records (titles : PySet.t) (speakers : list Speaker)
    : list Speaker :=
  filter (λ sp, PySet.mem (JStr (title sp)) titles = false) speakers.

(** A complete configuration. *)
Definition config_ok : EmailConfig :=
  mkEmailConfig "smtp.gmail.com" 587 "organizacao@evento.org" "segredo"
    "Equipe" "https://docs.google.com/spreadsheets/d/abc123".

(** An SMTP server that accepts every session. *)
Definition smtp_accepts (_ : nat) (_ : Speaker) (_ : string) : option string :=
  None.

(** The line that [run] logs for an exception before it raises it again. *)
Definition campaign_error (text : string) : Event :=
  Log ERROR ("Erro na campanha: " +:+ text).

(** The answer at the prompt is taken as a yes. *)
Definition accepted (keyboard : string) : bool :=
  String.eqb (PyStr.lower (PyStr.strip keyboard)) "s".

(** The events that reach neither the SMTP server nor the history file
    and do not pause. *)
Definition harmless (e : Event) : Prop :=
  match e with
  | Send _ _ _ | Save _ | WriteFile _ | Sleep _ => False
  | _ => True
  end.

(** A spreadsheet with the row of the specification, and one that cannot
    be fetched. *)
Definition sheet_alice (_ : string) : Result (list CsvParser.Row) :=
  Ok [row_alice].

Definition sheet_unreachable (_ : string) : Result (list CsvParser.Row) :=
  Raise DownloadError.

(** A text for every exception. *)
Definition exn_words (_ : exn) : string := "falha".

(** A manager that has the title of the specification's row in its set. *)
Definition state_seen : State :=
  set_sent_titles [JStr "Async Patterns"] state_new.

(** The second record of [row_alice]. *)
Definition alice_second : Speaker :=
  mkSpeaker "Alice" "b@y.com" "Async Patterns" "Async Patterns" "Alice" PALESTRA.

(** * Properties *)

(** ** Examples *)

Example strip_ex : PyStr.strip "  a@x.com 	" = "a@x.com".
Proof. reflexivity. Qed.

Example strip_nbsp : PyStr.strip (String "194" (String "160" "x")) = "x".
Proof. reflexivity. Qed.

Example split_ex : PyStr.split "," "a@x.com, b@y.com" = ["a@x.com"; " b@y.com"].
Proof. reflexivity. Qed.

Example split_empty : PyStr.split "," ",a," = [""; "a"; ""].
Proof. reflexivity. Qed.

Example of_nat_ex : PyStr.of_nat 3 = "3".
Proof. reflexivity. Qed.

Example parse_alice :
  CsvParser._parse_row row_alice =
  Ok [mkSpeaker "Alice" "a@x.com" "Async Patterns" "Async Patterns" "Alice" PALESTRA;
      mkSpeaker "Alice" "b@y.com" "Async Patterns" "Async Patterns" "Alice" PALESTRA].
Proof. vm_compute. reflexivity. Qed.

(** ** The parser *)

Module CsvParserFacts.
Import CsvParser.

Lemma truthy_false (s : string) : PyStr.truthy s = false ↔ s = "".
Proof. destruct s; simpl; split; congruence. Qed.

Lemma truthy_true (s : string) : PyStr.truthy s = true ↔ s ≠ "".
Proof. destruct s; simpl; split; congruence. Qed.

Lemma author_at_Some (authors : list string) (i : nat) :
  authors ≠ [] → is_Some (author_at authors i).
Proof.
  intros Hne. unfold author_at.
  destruct (Nat.ltb_spec i (length authors)) as [Hlt | Hge].
  - by apply lookup_lt_is_Some.
  - destruct authors; [done | by eexists].
Qed.

Lemma _parse_row_loop_spec authors th ty emails :
  authors ≠ [] →
  ∀ i acc, ∃ l,
    _parse_row_loop authors th ty i emails acc = Ok (acc ++ l)
    ∧ map email l = filter (λ e, PyStr.contains "@" e = true) emails
    ∧ Forall (λ sp, title sp = th ∧ theme sp = th
                    ∧ all_authors sp = joined_authors authors
                    ∧ activity_type sp = ty) l
    ∧ ∀ j e, emails !! j = Some e → PyStr.contains "@" e = true →
        ∃ a, author_at authors (i + j) = Some a
             ∧ l !! rank emails j =
                 Some (mkSpeaker a e th th (joined_authors authors) ty).
Proof.
  intros Hne. induction emails as [| e0 emails IH]; intros i acc.
  - exists []. simpl. rewrite app_nil_r. split_and!; [done.. |].
    intros j e Hj. by rewrite lookup_nil in Hj.
  - simpl. destruct (PyStr.contains "@" e0) eqn:Hat.
    + destruct (author_at_Some authors i Hne) as [a Ha].
      assert (Hname : (if (i <? length authors)%nat then index authors i
                       else index authors 0) = Ok a).
      { unfold author_at in Ha. unfold index.
        destruct (i <? length authors)%nat; by rewrite Ha. }
      assert (Hjoin : (if (1 <? length authors)%nat
                       then Ok (PyStr.join ", " authors)
                       else index authors 0) = Ok (joined_authors authors)).
      { unfold joined_authors, index.
        destruct (1 <? length authors)%nat; [done |].
        destruct authors; [done | done]. }
      rewrite Hname, Hjoin. simpl.
      destruct (IH (S i)
        (acc ++ [mkSpeaker a e0 th th (joined_authors authors) ty]))
        as (l & Hl & Hmap & Hall & Hpos).
      exists (mkSpeaker a e0 th th (joined_authors authors) ty :: l).
      split_and!.
      * rewrite Hl. by rewrite <- app_assoc.
      * simpl. rewrite filter_cons_True by done. by rewrite Hmap.
      * by constructor.
      * intros [| j] e Hj He.
        -- simpl in Hj. injection Hj as <-. exists a.
           rewrite Nat.add_0_r. by split.
        -- simpl in Hj. destruct (Hpos j e Hj He) as (a' & Ha' & Hl').
           exists a'. split; [by rewrite Nat.add_succ_r |].
           unfold rank. simpl. rewrite filter_cons_True by done. done.
    + destruct (IH (S i) acc) as (l & Hl & Hmap & Hall & Hpos).
      exists l. split_and!; [done | | done |].
      * rewrite filter_cons_False by congruence. done.
      * intros [| j] e Hj He.
        -- simpl in Hj. injection Hj as <-. congruence.
        -- simpl in Hj. destruct (Hpos j e Hj He) as (a' & Ha' & Hl').
           exists a'. split; [by rewrite Nat.add_succ_r |].
           unfold rank. simpl. rewrite filter_cons_False by congruence. done.
Qed.




Lemma _parse_row_complete (row : Row) :
  activity_of row ≠ "" → theme_of row ≠ "" → email_of row ≠ "" →
  _extract_authors row ≠ [] →
  _parse_row row =
  _parse_row_loop (_extract_authors row) (theme_of row)
    (_get_activity_type (activity_of row)) 0
    (_parse_emails (email_of row)) [].
Proof.
  intros Ha Ht He Hau. unfold _parse_row.
  fold (activity_of row) (theme_of row) (email_of row).
  apply truthy_true in Ha, Ht, He. rewrite Ha, Ht, He.
  destruct (_extract_authors row); [done | done].
Qed.

End CsvParserFacts.

(** C2. A complete row gives one record for every address of its e-mail
    list that has an at sign, in the order of the list, all with the theme
    of the row as title; the record of the address at position [i] is named
    after [authors[i]] when the row has that many authors, and after
    [authors[0]] otherwise. A row with the e-mail field
    "a@x.com, b@y.com" and the single author Alice gives two records named
    Alice, for a@x.com and then b@y.com, with the same title. *)
Theorem parse_row_one_record_per_address :
  (∀ row : CsvParser.Row,
     activity_of row ≠ "" →
     theme_of row ≠ "" →
     email_of row ≠ "" →
     CsvParser._extract_authors row ≠ [] →
     ∃ speakers : list Speaker,
       CsvParser._parse_row row = Ok speakers
       ∧ map email speakers =
           filter (λ e, PyStr.contains "@" e = true)
             (CsvParser._parse_emails (email_of row))
       ∧ Forall (λ sp, title sp = theme_of row) speakers
       ∧ ∀ (i : nat) (e : string),
           CsvParser._parse_emails (email_of row) !! i = Some e →
           PyStr.contains "@" e = true →
           ∃ sp : Speaker,
             speakers !! rank
               (CsvParser._parse_emails (email_of row)) i = Some sp
             ∧ email sp = e
             ∧ ((i < length (CsvParser._extract_authors row))%nat →
                CsvParser._extract_authors row !! i = Some (name sp))
             ∧ ((length (CsvParser._extract_authors row) ≤ i)%nat →
                CsvParser._extract_authors row !! 0 = Some (name sp)))
  ∧ (∀ row : CsvParser.Row,
       activity_of row ≠ "" →
       theme_of row ≠ "" →
       email_of row = "a@x.com, b@y.com" →
       CsvParser._extract_authors row = ["Alice"] →
       ∃ ty : ActivityType,
         CsvParser._parse_row row =
         Ok [mkSpeaker "Alice" "a@x.com" (theme_of row)
               (theme_of row) "Alice" ty;
             mkSpeaker "Alice" "b@y.com" (theme_of row)
               (theme_of row) "Alice" ty]).
Proof.
  split.
  - intros row Ha Ht He Hau.
    destruct (CsvParserFacts._parse_row_loop_spec
      (CsvParser._extract_authors row) (theme_of row)
      (CsvParser._get_activity_type (activity_of row))
      (CsvParser._parse_emails (email_of row)) Hau 0 [])
      as (l & Hl & Hmap & Hall & Hpos).
    exists l. split_and!.
    + by rewrite CsvParserFacts._parse_row_complete.
    + done.
    + eapply Forall_impl; [exact Hall | by intros sp (? & _)].
    + intros i e Hi Hat. destruct (Hpos i e Hi Hat) as (a & Ha' & Hl').
      eexists. split; [exact Hl' |]. simpl. split; [done |].
      unfold author_at in Ha'. simpl in Ha'.
      split; intros Hlen.
      * apply Nat.ltb_lt in Hlen. by rewrite Hlen in Ha'.
      * apply Nat.ltb_ge in Hlen. by rewrite Hlen in Ha'.
  - intros row Ha Ht He Hau.
    exists (CsvParser._get_activity_type (activity_of row)).
    rewrite CsvParserFacts._parse_row_complete; [| done | done | | ].
    + rewrite He, Hau. reflexivity.
    + by rewrite He.
    + by rewrite Hau.
Qed.

Lemma parse_row_one_record_per_address_witness :
  (∃ speakers : list Speaker,
     CsvParser._parse_row row_alice = Ok speakers
     ∧ map email speakers = ["a@x.com"; "b@y.com"]
     ∧ Forall (λ sp, title sp = "Async Patterns") speakers)
  ∧ ∃ ty : ActivityType,
      CsvParser._parse_row row_alice =
      Ok [mkSpeaker "Alice" "a@x.com" "Async Patterns" "Async Patterns"
            "Alice" ty;
          mkSpeaker "Alice" "b@y.com" "Async Patterns" "Async Patterns"
            "Alice" ty].
Proof.
  split.
  - destruct (proj1 parse_row_one_record_per_address row_alice)
      as (speakers & H1 & H2 & H3 & _).
    + vm_compute. discriminate.
    + vm_compute. discriminate.
    + vm_compute. discriminate.
    + vm_compute. discriminate.
    + exists speakers. split_and!; [exact H1 | exact H2 | exact H3].
  - apply (proj2 parse_row_one_record_per_address row_alice).
    + vm_compute. discriminate.
    + vm_compute. discriminate.
    + vm_compute. reflexivity.
    + vm_compute. reflexivity.
Defined.



(** ** Running computations *)

Lemma run_bind {A B} (m : M A) (k : A → M B) (s : State) :
  (m ≫= k) s =
  match m s with
  | (Ok a, s') => k a s'
  | (Raise e, s') => (Raise e, s')
  end.
Proof. reflexivity. Qed.

Ltac mrun :=
  repeat (rewrite run_bind;
          unfold mret, M_ret, gets, modify, emit, log_info, log_error,
                 lift, raise;
          cbn -[String.append PyStr.of_nat]).

Ltac mstate :=
  unfold set_trace, set_file, set_data, set_sent_titles, set_clock, set_sends;
  cbn -[String.append PyStr.of_nat];
  rewrite <- ?app_assoc;
  cbn -[String.append PyStr.of_nat].

(** ** The template *)

Module EmailTemplateFacts.

Lemma render_total (sp : Speaker) : ∃ body, EmailTemplate.render sp = Ok body.
Proof.
  destruct sp as [n e t th a ty].
  unfold EmailTemplate.render, EmailTemplate._build_context. simpl.
  destruct ty, (PyStr.contains "," a); eexists; lazy; reflexivity.
Qed.

End EmailTemplateFacts.

(** ** Validation of the configuration *)

Section RunFacts.

Variable now : nat → string.
Variable smtp : nat → Speaker → string → option string.
Variable spreadsheet : string → Result (list CsvParser.Row).
Variable keyboard : string.
Variable exn_text : exn → string.

Lemma log_errors_run (errors : list string) (s : State) :
  log_errors errors s =
  (Ok tt, set_trace (trace s ++ map (λ e, Log ERROR ("❌ " +:+ e)) errors) s).
Proof.
  revert s. induction errors as [| e errors IH]; intros s.
  - simpl. unfold mret, M_ret. rewrite app_nil_r. by destruct s.
  - simpl. mrun. rewrite IH. by mstate.
Qed.

Lemma validate_nil (c : EmailConfig) :
  validate c = [] ↔
  sender_email c ≠ "" ∧ sender_password c ≠ "" ∧ sheet_url c ≠ "".
Proof.
  unfold validate.
  destruct (sender_email c), (sender_password c), (sheet_url c);
    simpl; split; try done; intros (? & ? & ?); done.
Qed.

(** C5, as the code has it. The settings that [validate] requires are the
    sender address, the sender password and the sheet URL: there is one
    diagnostic for each of them that is empty, and none when all three
    are given. When there is a diagnostic, [run] logs its opening line
    and the diagnostics, in order, and returns: it makes no download and
    changes nothing else. The server name, the port and the display name
    are not checked. *)
Theorem validate_required_settings (c : EmailConfig) :
  (validate c = [] ↔
     sender_email c ≠ "" ∧ sender_password c ≠ "" ∧ sheet_url c ≠ "")
  ∧ length (validate c) =
      length (filter (λ v, v = "")
                [sender_email c; sender_password c; sheet_url c])
  ∧ ∀ (dry_run : bool) (s : State),
      validate c ≠ [] →
      run now smtp spreadsheet keyboard exn_text c dry_run s =
      (Ok tt,
       set_trace
         (trace s ++
          Log INFO "🐍 Iniciando campanha de e-mails - Python Norte 2025"
          :: map (λ e, Log ERROR ("❌ " +:+ e)) (validate c)) s).
Proof.
  split_and!.
  - apply validate_nil.
  - unfold validate.
    destruct (sender_email c), (sender_password c), (sheet_url c); done.
  - intros dry_run s Hne. unfold run.
    destruct (validate c) as [| e errors] eqn:Hv; [done |].
    rewrite <- Hv. mrun. rewrite log_errors_run. by mstate.
Qed.

End RunFacts.

Lemma validate_required_settings_witness :
  run (λ _, "") (λ _ _ _, None) (λ _, Raise DownloadError) "" (λ _, "")
    config_no_password false state0 =
  (Ok tt,
   set_trace
     [Log INFO "🐍 Iniciando campanha de e-mails - Python Norte 2025";
      Log ERROR "❌ Senha do remetente (GMAIL_APP_PASSWORD) não configurada"]
     state0).
Proof.
  apply (proj2 (proj2 (validate_required_settings
    (λ _, "") (λ _ _ _, None) (λ _, Raise DownloadError) "" (λ _, "")
    config_no_password)) false state0).
  vm_compute. discriminate.
Defined.

(** C5 as stated fails: with an empty server name and an empty display
    name [validate] reports nothing, and the run goes on to the download. *)
Lemma validate_ignores_server_counterexample :
  smtp_server config_no_server = ""
  ∧ sender_name config_no_server = ""
  ∧ validate config_no_server = []
  ∧ In (Download (sheet_url config_no_server))
       (trace (snd (run (λ _, "") (λ _ _ _, None) (λ _, Raise DownloadError)
                      "" (λ _, "") config_no_server false state0))).
Proof.
  split_and!; [reflexivity.. |].
  vm_compute. right. left. reflexivity.
Qed.

(** ** Python sets *)

Module PySetFacts.
Import PySet.

Lemma py_eqb_refl (x : json) : hashable x = true → py_eqb x x = true.
Proof.
  destruct x as [| b | z | s | l | m]; simpl; try done.
  - by destruct b.
  - intros _. apply Z.eqb_refl.
  - intros _. apply String.eqb_refl.
Qed.

Lemma py_eqb_str (t : string) (y : json) :
  py_eqb (JStr t) y = true ↔ y = JStr t.
Proof.
  destruct y; simpl; split; try done.
  - intros H. apply String.eqb_eq in H. by subst.
  - intros [= ->]. apply String.eqb_refl.
Qed.

Lemma mem_app (x : json) (s1 s2 : t) : mem x (s1 ++ s2) = mem x s1 || mem x s2.
Proof. unfold mem. apply existsb_app. Qed.

Lemma mem_insert_mono (x y : json) (s : t) :
  mem x s = true → mem x (insert y s) = true.
Proof.
  intros H. unfold insert. destruct (mem y s); [done |].
  rewrite mem_app, H. done.
Qed.

Lemma mem_insert (x : json) (s : t) :
  hashable x = true → mem x (insert x s) = true.
Proof.
  intros H. unfold insert. destruct (mem x s) eqn:Hm; [done |].
  rewrite mem_app. simpl. rewrite (py_eqb_refl x H). by rewrite orb_true_r.
Qed.

Lemma mem_str (t0 : string) (s : t) : mem (JStr t0) s = true ↔ In (JStr t0) s.
Proof.
  unfold mem. rewrite existsb_exists. split.
  - intros (y & Hy & Heq). apply py_eqb_str in Heq. by subst.
  - intros H. exists (JStr t0). split; [done |]. by apply py_eqb_str.
Qed.

Lemma count_key_app t0 s1 s2 :
  count_key t0 (s1 ++ s2) = (count_key t0 s1 + count_key t0 s2)%nat.
Proof. unfold count_key. by rewrite List.filter_app, length_app. Qed.

Lemma count_key_0 t0 s : mem (JStr t0) s = false → count_key t0 s = 0%nat.
Proof.
  unfold count_key, mem. induction s as [| y s IH]; [done |].
  cbn [existsb List.filter].
  intros H. apply orb_false_iff in H as [H1 H2]. rewrite H1. by apply IH.
Qed.

Lemma count_key_pos t0 s : mem (JStr t0) s = true → (0 < count_key t0 s)%nat.
Proof.
  unfold count_key, mem. induction s as [| y s IH]; [done |].
  cbn [existsb List.filter].
  destruct (py_eqb (JStr t0) y); simpl; [lia | apply IH].
Qed.

Lemma keys_once_insert (x : json) (s : t) :
  keys_once s → keys_once (insert x s).
Proof.
  intros Hs t0. unfold insert. destruct (mem x s) eqn:Hm; [apply Hs |].
  rewrite count_key_app. unfold count_key at 2. cbn [List.filter].
  destruct (py_eqb (JStr t0) x) eqn:Heq; cbn [length].
  - apply py_eqb_str in Heq. subst x.
    rewrite (count_key_0 _ _ Hm). lia.
  - specialize (Hs t0). lia.
Qed.

Lemma count_key_insert (t0 : string) (s : t) :
  keys_once s → count_key t0 (insert (JStr t0) s) = 1%nat.
Proof.
  intros Hs.
  pose proof (keys_once_insert (JStr t0) s Hs t0) as Hle.
  pose proof (count_key_pos t0 (insert (JStr t0) s)
                (mem_insert (JStr t0) s eq_refl)) as Hpos.
  lia.
Qed.

Lemma good_nil : good [].
Proof. split; [constructor | intros t0; unfold count_key; simpl; lia]. Qed.

Lemma good_insert (x : json) (s : t) :
  hashable x = true → good s → good (insert x s).
Proof.
  intros Hx [Hh Ho]. split; [| by apply keys_once_insert].
  unfold insert. destruct (mem x s); [done |].
  apply Forall_app. split; [done | by constructor].
Qed.

Lemma add_Ok (x : json) (s s' : t) :
  add x s = Ok s' → hashable x = true ∧ s' = insert x s.
Proof. unfold add. destruct (hashable x); [by intros [= <-] | done]. Qed.

Lemma add_all_spec (l : list json) (s s' : t) :
  add_all l s = Ok s' →
  (good s → good s')
  ∧ (∀ x, mem x s = true → mem x s' = true)
  ∧ (∀ x, In x l → mem x s' = true).
Proof.
  revert s. induction l as [| y l IH]; intros s; simpl.
  - intros [= <-]. split_and!; [done.. |]. by intros x [].
  - destruct (add y s) as [s1 | e] eqn:Hadd; simpl; [| done].
    apply add_Ok in Hadd as [Hy ->]. intros H.
    destruct (IH _ H) as (Hg & Hmono & Hin). split_and!.
    + intros Hs. by apply Hg, good_insert.
    + intros x Hx. by apply Hmono, mem_insert_mono.
    + intros x [<- | Hx]; [| by apply Hin].
      by apply Hmono, mem_insert.
Qed.

Lemma add_all_total (l : list json) (s : t) :
  Forall (λ x, hashable x = true) l → ∃ s', add_all l s = Ok s'.
Proof.
  intros Hl. revert s. induction Hl as [| y l Hy Hl IH]; intros s; simpl.
  - by eexists.
  - unfold add. rewrite Hy. simpl. apply IH.
Qed.

(** A set written as a list and read again keeps its elements. *)
Lemma add_all_good_id (s : t) : good s → ∃ s', add_all s [] = Ok s' ∧ good s'.
Proof.
  intros [Hh Ho]. destruct (add_all_total s [] Hh) as [s' Hs'].
  exists s'. split; [done |].
  by apply (add_all_spec _ _ _ Hs'), good_nil.
Qed.

End PySetFacts.

(** ** The history store *)

Section StoreFacts.

Variable now : nat → string.

Lemma save_run (speaker : Speaker) (s : State) :
  save now speaker s =
  match load_data (_data s), _data s with
  | Raise e, _ => (Raise e, s)
  | Ok titles, JObj m =>
      match details_of m with
      | Some l =>
          let d := JObj (saved m titles l speaker (now (clock s))
                           (now (S (clock s)))) in
          (Ok tt,
           mkState (Content d) d (sent_titles s) (S (S (clock s))) (sends s)
             (trace s ++ [WriteFile d]))
      | None =>
          (Raise AttributeError,
           mkState (file s)
             (JObj (<["last_update" := JStr (now (clock s))]>
                (<["sent_titles" :=
                     JArr (PySet.insert (JStr (title speaker)) titles)]> m)))
             (sent_titles s) (S (clock s)) (sends s) (trace s))
      end
  | Ok titles, _ => (Raise TypeError, s)
  end.
Proof.
  unfold save, load. mrun.
  destruct (load_data (_data s)) as [titles | e] eqn:Hload; [| done].
  destruct (_data s) as [| | | | | m] eqn:Hd; try done.
  unfold data_setitem, datetime_now, data_contains, data_getitem, write_file.
  mrun. rewrite Hd. mrun.
  rewrite !lookup_insert_ne by done. unfold details_of.
  destruct (m !! "details") as [v |] eqn:Hdet.
  - rewrite bool_decide_true by eauto. cbn -[String.append]. mrun.
    rewrite !lookup_insert_ne by done. rewrite Hdet.
    destruct v; mrun; done.
  - rewrite bool_decide_false by (by intros [? ?]). cbn -[String.append].
    mrun. rewrite lookup_insert_eq. mrun.
    unfold saved. mstate. by rewrite insert_insert_eq.
Qed.

Lemma load_detail_cases (s s1 : PySet.t) (y : json) :
  load_detail s y = Ok s1 →
  (s1 = s ∧ ∀ d v, y = JObj d → d !! "titulo" = Some v → False)
  ∨ (∃ d v, y = JObj d ∧ d !! "titulo" = Some v
            ∧ PySet.hashable v = true ∧ s1 = PySet.insert v s).
Proof.
  unfold load_detail.
  destruct y as [| | | | | d]; try (intros [= <-]; left; by split).
  destruct (d !! "titulo") as [v |] eqn:Hv.
  - intros Hy. apply PySetFacts.add_Ok in Hy as [Hh ->].
    right. by exists d, v.
  - intros [= <-]. left. split; [done |].
    intros d' v' [= <-] Hv'. by rewrite Hv in Hv'.
Qed.

Lemma load_details_spec (l : list json) (s s' : PySet.t) :
  load_details l s = Ok s' →
  (good s → good s')
  ∧ (∀ x, PySet.mem x s = true → PySet.mem x s' = true)
  ∧ (∀ d v, In (JObj d) l → d !! "titulo" = Some v → PySet.mem v s' = true)
  ∧ (∀ t, PySet.mem (JStr t) s' = true →
       PySet.mem (JStr t) s = true
       ∨ ∃ d, In (JObj d) l ∧ d !! "titulo" = Some (JStr t)).
Proof.
  revert s. induction l as [| y l IH]; intros s; simpl.
  - intros [= <-]. split_and!; [done.. | by intros ? ? [] | by left].
  - destruct (load_detail s y) as [s1 | e] eqn:Hy; simpl; [| done].
    intros H. destruct (IH _ H) as (Hg & Hmono & Hin & Hout).
    apply load_detail_cases in Hy
      as [[-> Hno] | (d & v & -> & Hv & Hh & ->)].
    + split_and!; [done | done | |].
      * intros d v [Hd | Hd] Hv; [by eelim Hno | by eapply Hin].
      * intros t Ht. destruct (Hout t Ht) as [? | (d & ? & ?)];
          [by left | right; exists d; split; [by right | done]].
    + split_and!.
      * intros Hs. by apply Hg, PySetFacts.good_insert.
      * intros x Hx. by apply Hmono, PySetFacts.mem_insert_mono.
      * intros d' v' [Hd | Hd] Hv'; [| by eapply Hin].
        injection Hd as <-. rewrite Hv in Hv'. injection Hv' as <-.
        by apply Hmono, PySetFacts.mem_insert.
      * intros t Ht. destruct (Hout t Ht) as [Hm | (d' & ? & ?)].
        -- unfold PySet.insert in Hm. destruct (PySet.mem v s); [by left |].
           rewrite PySetFacts.mem_app in Hm.
           apply orb_true_iff in Hm as [Hm | Hm]; [by left |].
           right. exists d. split; [by left |].
           unfold PySet.mem in Hm. cbn [existsb] in Hm.
           rewrite orb_false_r in Hm.
           apply PySetFacts.py_eqb_str in Hm. by subst.
        -- right. exists d'. split; [by right | done].
Qed.

Lemma load_details_total (l : list json) (s : PySet.t) :
  Forall entry_ok l → ∃ s', load_details l s = Ok s'.
Proof.
  intros Hl. revert s. induction Hl as [| y l Hy Hl IH]; intros s; simpl.
  - by eexists.
  - unfold load_detail. destruct y as [| | | | | d]; simpl; try apply IH.
    simpl in Hy. destruct (d !! "titulo") as [v |]; simpl; [| apply IH].
    unfold PySet.add. rewrite Hy. simpl. apply IH.
Qed.

Lemma of_json_good (j : json) (s : PySet.t) :
  PySet.of_json j = Ok s → good s.
Proof.
  unfold PySet.of_json. destruct (PySet.iter j) as [l | e]; simpl; [| done].
  intros H. by apply (PySetFacts.add_all_spec _ _ _ H), PySetFacts.good_nil.
Qed.

Lemma load_data_good (data : json) (titles : PySet.t) :
  load_data data = Ok titles → good titles.
Proof.
  unfold load_data. destruct data as [| | | | | m]; try done.
  destruct (PySet.of_json _) as [s0 | e] eqn:Hs0; simpl; [| done].
  pose proof (of_json_good _ _ Hs0) as Hg.
  destruct s0 as [| x s0]; [| by intros [= <-]].
  destruct (m !! "details") as [details |]; [| by intros [= <-]].
  destruct (PySet.iter details) as [l | e]; simpl; [| done].
  intros H. by apply (load_details_spec _ _ _ H).
Qed.

(** Reading back what [save] wrote. *)
Lemma load_saved (m : gmap string json) (titles : PySet.t)
    (details : list json) (speaker : Speaker) (t1 t2 : string) :
  good titles →
  ∃ titles',
    load_data (JObj (saved m titles details speaker t1 t2)) = Ok titles'
    ∧ good titles'
    ∧ PySet.mem (JStr (title speaker)) titles' = true.
Proof.
  intros Hg.
  assert (Hg' : good (PySet.insert (JStr (title speaker)) titles))
    by by apply PySetFacts.good_insert.
  destruct (PySetFacts.add_all_good_id _ Hg') as (s' & Hs' & Hgs').
  assert (Hmem : PySet.mem (JStr (title speaker)) s' = true).
  { apply (PySetFacts.add_all_spec _ _ _ Hs').
    apply PySetFacts.mem_str. by apply PySetFacts.mem_insert. }
  exists s'. split_and!; [| done | done].
  unfold load_data, saved.
  rewrite (lookup_insert_ne _ "details" "sent_titles") by done.
  rewrite (lookup_insert_ne _ "last_update" "sent_titles") by done.
  rewrite (lookup_insert_eq _ "sent_titles"). simpl.
  unfold PySet.of_json. simpl. rewrite Hs'. simpl.
  destruct s'; [done | done].
Qed.

Lemma details_of_saved (m : gmap string json) (titles : PySet.t)
    (details : list json) (speaker : Speaker) (t1 t2 : string) :
  details_of (saved m titles details speaker t1 t2) =
  Some (details ++ [history_entry speaker t2]).
Proof. unfold details_of, saved. by rewrite lookup_insert_eq. Qed.

(** When [save] returns, it went through all of its steps. *)
Lemma save_Ok_inv (speaker : Speaker) (s s' : State) :
  save now speaker s = (Ok tt, s') →
  ∃ m titles details,
    _data s = JObj m
    ∧ load_data (JObj m) = Ok titles
    ∧ details_of m = Some details
    ∧ s' = (let d := JObj (saved m titles details speaker (now (clock s))
                             (now (S (clock s)))) in
            mkState (Content d) d (sent_titles s) (S (S (clock s))) (sends s)
              (trace s ++ [WriteFile d])).
Proof.
  rewrite save_run.
  destruct (load_data (_data s)) as [titles | e] eqn:Hload; [| done].
  destruct (_data s) as [| | | | | m] eqn:Hd; try done.
  destruct (details_of m) as [details |] eqn:Hdet; [| done].
  intros [= <-]. by exists m, titles, details.
Qed.

(** When [save] raises, the file, the trace and the manager's set are as
    before. *)
Lemma save_Raise_inv (speaker : Speaker) (s s' : State) (e : exn) :
  save now speaker s = (Raise e, s') →
  file s' = file s ∧ trace s' = trace s ∧ sent_titles s' = sent_titles s
  ∧ sends s' = sends s.
Proof.
  rewrite save_run.
  destruct (load_data (_data s)) as [titles | e'] eqn:Hload;
    [| by intros [= <- <-]].
  destruct (_data s) as [| | | | | m] eqn:Hd; try by intros [= <- <-].
  destruct (details_of m) as [details |] eqn:Hdet; [done |].
  by intros [= <- <-].
Qed.

End StoreFacts.

Section StoreClaims.

Variable now : nat → string.

(** C6. Two calls of [save] for records with the same title: when the
    first returns, the second returns too, the list [sent_titles] of the
    file holds the title exactly once, and the list [details] is the
    former log (empty when the key was missing) with two more entries,
    one for each call. *)
Theorem save_twice_same_title (sp1 sp2 : Speaker) (s s1 : State) :
  title sp1 = title sp2 →
  save now sp1 s = (Ok tt, s1) →
  ∃ (s2 : State) (m m2 : gmap string json) (titles details : list json),
    save now sp2 s1 = (Ok tt, s2)
    ∧ _data s = JObj m
    ∧ details_of m = Some details
    ∧ file s2 = Content (JObj m2)
    ∧ m2 !! "sent_titles" = Some (JArr titles)
    ∧ count_key (title sp1) titles = 1%nat
    ∧ m2 !! "details" =
        Some (JArr (details ++
                [history_entry sp1 (now (S (clock s)));
                 history_entry sp2 (now (S (S (S (clock s)))))])).
Proof.
  intros Htitle H1.
  apply save_Ok_inv in H1 as (m & titles0 & details & Hd & Hload & Hdet & ->).
  pose proof (load_data_good _ _ Hload) as Hg0.
  destruct (load_saved m titles0 details sp1 (now (clock s))
              (now (S (clock s))) Hg0) as (titles1 & Hload1 & Hg1 & Hmem1).
  eexists _, m, _, _, details.
  split.
  { rewrite save_run. cbn [_data clock]. rewrite Hload1.
    rewrite details_of_saved. reflexivity. }
  split_and!; [done | done | reflexivity | | |].
  - unfold saved. cbn [clock sent_titles sends trace].
    rewrite (lookup_insert_ne _ "details" "sent_titles") by done.
    rewrite (lookup_insert_ne _ "last_update" "sent_titles") by done.
    by rewrite (lookup_insert_eq _ "sent_titles").
  - rewrite Htitle. by apply PySetFacts.count_key_insert, Hg1.
  - unfold saved at 1. rewrite lookup_insert_eq.
    by rewrite <- app_assoc.
Qed.



(** C8. Over a missing or unparsable file the store is built and [load]
    returns the empty set. Over a file whose structure has no title list,
    or an empty one, and a list [details] whose entries can be read,
    [load] returns the titles of the log: a title is in the set exactly
    when an entry of the log has it under [titulo]. *)
Theorem load_absent_corrupt_or_log_only :
  (∀ s : State,
     file s = Absent ∨ file s = Unparsable →
     (JsonDataStore_init ≫= λ _, load) s = (Ok [], set_data empty_history s))
  ∧ (∀ (s : State) (m : gmap string json) (details : list json),
       file s = Content (JObj m) →
       m !! "sent_titles" = None ∨ m !! "sent_titles" = Some (JArr []) →
       m !! "details" = Some (JArr details) →
       Forall entry_ok details →
       ∃ titles : PySet.t,
         (JsonDataStore_init ≫= λ _, load) s =
           (Ok titles, set_data (JObj m) s)
         ∧ ∀ t : string,
             PySet.mem (JStr t) titles = true ↔
             ∃ d : gmap string json,
               In (JObj d) details ∧ d !! "titulo" = Some (JStr t)).
Proof.
  split.
  - intros s [H | H]; unfold JsonDataStore_init, load; mrun; by rewrite H.
  - intros s m details Hfile Htitles Hdetails Hok.
    destruct (load_details_total details [] Hok) as [titles Hl].
    exists titles. split.
    + unfold JsonDataStore_init, load. mrun. rewrite Hfile.
      cbn [_load_data]. unfold load_data.
      assert (Hof : PySet.of_json (default (JArr []) (m !! "sent_titles"))
                    = Ok []) by (destruct Htitles as [-> | ->]; reflexivity).
      rewrite Hof. cbn [mbind result_bind]. rewrite Hdetails.
      cbn [PySet.iter mbind result_bind]. by rewrite Hl.
    + destruct (load_details_spec _ _ _ Hl) as (_ & _ & Hin & Hout).
      intros t. split.
      * intros Ht. by destruct (Hout t Ht) as [? | ?].
      * intros (d & Hd & Ht). by eapply Hin.
Qed.

End StoreClaims.

Lemma save_twice_same_title_witness :
  ∃ (s2 : State) (titles : list json),
    save PyStr.of_nat bob_talk (snd (save PyStr.of_nat alice_talk state_new))
      = (Ok tt, s2)
    ∧ count_key "Async Patterns" titles = 1%nat
    ∧ ∃ m2, file s2 = Content (JObj m2)
        ∧ m2 !! "sent_titles" = Some (JArr titles)
        ∧ m2 !! "details" =
            Some (JArr [history_entry alice_talk "1"; history_entry bob_talk "3"]).
Proof.
  destruct (save_twice_same_title PyStr.of_nat alice_talk bob_talk state_new
              (snd (save PyStr.of_nat alice_talk state_new)))
    as (s2 & m & m2 & titles & details & H1 & H2 & H3 & H4 & H5 & H6 & H7).
  - reflexivity.
  - vm_compute. reflexivity.
  - exists s2, titles. split; [exact H1 |]. split; [exact H6 |].
    exists m2. split; [exact H4 |]. split; [exact H5 |].
    injection H2 as <-. injection H3 as <-. exact H7.
Defined.



Lemma load_absent_corrupt_or_log_only_witness :
  (JsonDataStore_init ≫= λ _, load) state0 = (Ok [], set_data empty_history state0)
  ∧ ∃ titles : PySet.t,
      (JsonDataStore_init ≫= λ _, load) state_v0 = (Ok titles, state_v0)
      ∧ PySet.mem (JStr "Async Patterns") titles = true.
Proof.
  split.
  - apply (proj1 load_absent_corrupt_or_log_only state0). left. reflexivity.
  - destruct (proj2 load_absent_corrupt_or_log_only state_v0
      (<["campanha" := JStr "PYN25"]>
       (<["details" :=
            JArr [history_entry alice_talk "2025-05-01T10:00:00"; JStr "nota";
                  JObj (<["email" := JStr "c@z.com"]> ∅)]]> ∅))
      [history_entry alice_talk "2025-05-01T10:00:00"; JStr "nota";
       JObj (<["email" := JStr "c@z.com"]> ∅)])
      as (titles & H1 & H2).
    + reflexivity.
    + left. reflexivity.
    + reflexivity.
    + repeat constructor.
    + exists titles. split; [exact H1 |].
      apply H2. eexists. split; [left; reflexivity | reflexivity].
Defined.

(** A file that parses to something other than a dict is not an empty
    store: [load] raises. *)
Remark load_of_a_list_raises :
  (JsonDataStore_init ≫= λ _, load) (set_file (Content (JArr [])) state0)
  = (Raise AttributeError,
     set_data (JArr []) (set_file (Content (JArr [])) state0)).
Proof. reflexivity. Qed.

(** ** The co-author line *)

Module RenderFacts.
Import PyFormat.

Lemma append_assoc (s1 s2 s3 : string) :
  (s1 +:+ s2) +:+ s3 = s1 +:+ (s2 +:+ s3).
Proof. induction s1 as [| c s1 IH]; [done |]. change ((String c s1 +:+ s2) +:+ s3) with (String c ((s1 +:+ s2) +:+ s3)). by rewrite IH. Qed.

Lemma contains_app (c : ascii) (s1 s2 : string) :
  PyStr.contains c (s1 +:+ s2) = PyStr.contains c s1 || PyStr.contains c s2.
Proof.
  induction s1 as [| a s1 IH]; [done |].
  change (String a s1 +:+ s2) with (String a (s1 +:+ s2)).
  cbn [PyStr.contains]. by rewrite IH, orb_assoc.
Qed.

Lemma append_nil_l (s : string) : "" +:+ s = s.
Proof. reflexivity. Qed.

Lemma append_cons (a : ascii) (s1 s2 : string) :
  String a s1 +:+ s2 = String a (s1 +:+ s2).
Proof. reflexivity. Qed.

(** Formatting a template piece by piece. *)
Lemma format_go_app (context : Context) (s2 : string) :
  ∀ (n : nat) (s1 : string) (field : option string) (r1 : string),
    (String.length s1 ≤ n)%nat →
    format_go context s1 field = Ok r1 →
    format_go context (s1 +:+ s2) field =
    (r2 ← format_go context s2 None; Ok (r1 +:+ r2)).
Proof.
  assert (Hnil : ∀ field r1,
    format_go context "" field = Ok r1 →
    format_go context ("" +:+ s2) field =
    (r2 ← format_go context s2 None; Ok (r1 +:+ r2))).
  { intros field r1 H. destruct field; simpl in H; [done |].
    injection H as <-. rewrite append_nil_l.
    by destruct (format_go context s2 None). }
  induction n as [| n IH]; intros s1 field r1 Hn H.
  - destruct s1; [by apply Hnil | simpl in Hn; lia].
  - destruct s1 as [| a s1]; [by apply Hnil |].
    simpl in Hn. rewrite append_cons. cbn [format_go] in H |- *.
    destruct field as [acc |].
    + destruct (Ascii.eqb a "}").
      * destruct (lookup context (String.rev acc)) as [v |]; [| done].
        cbn [mbind result_bind] in H |- *.
        destruct (format_go context s1 None) as [rest |] eqn:Hrest; [| done].
        injection H as <-.
        rewrite (IH s1 None rest) by (done || lia).
        destruct (format_go context s2 None); cbn [mbind result_bind];
          [| done].
        by rewrite append_assoc.
      * apply IH; [lia | done].
    + destruct (Ascii.eqb a "{").
      { destruct s1 as [| b s1]; [done |].
        rewrite append_cons.
        destruct (Ascii.eqb_spec b "{") as [-> | Hb].
        - destruct (format_go context s1 None) as [rest |] eqn:Hrest;
            [| done].
          cbn [mbind result_bind] in H. injection H as <-. simpl in Hn.
          rewrite (IH s1 None rest) by (done || lia).
          by destruct (format_go context s2 None).
        - assert (Heq : ∀ (X : Type) (x y : X),
                    match b with "{"%char => x | _ => y end = y).
          { intros X x y.
            destruct b as [[] [] [] [] [] [] [] []]; try done. }
          rewrite Heq in H. rewrite Heq.
          rewrite <- append_cons. apply IH; [lia | done]. }
      destruct (Ascii.eqb a "}").
      { destruct s1 as [| b s1]; [done |].
        rewrite append_cons.
        destruct (Ascii.eqb_spec b "}") as [-> | Hb].
        - destruct (format_go context s1 None) as [rest |] eqn:Hrest;
            [| done].
          cbn [mbind result_bind] in H. injection H as <-. simpl in Hn.
          rewrite (IH s1 None rest) by (done || lia).
          by destruct (format_go context s2 None).
        - assert (Heq : ∀ (X : Type) (x y : X),
                    match b with "}"%char => x | _ => y end = y).
          { intros X x y.
            destruct b as [[] [] [] [] [] [] [] []]; try done. }
          by rewrite Heq in H. }
      destruct (format_go context s1 None) as [rest |] eqn:Hrest; [| done].
      cbn [mbind result_bind] in H. injection H as <-.
      rewrite (IH s1 None rest) by (done || lia).
      by destruct (format_go context s2 None).
Qed.

Lemma append_nil_r (s : string) : s +:+ "" = s.
Proof. induction s as [| c s IH]; [done |]. by rewrite append_cons, IH. Qed.

Lemma format_app (context : Context) (s1 s2 r1 : string) :
  format s1 context = Ok r1 →
  format (s1 +:+ s2) context = (r2 ← format s2 context; Ok (r1 +:+ r2)).
Proof. intros H. by apply (format_go_app context s2 (String.length s1)). Qed.

Lemma render_around_slot (sp : Speaker) :
  ∃ opening : string,
    ∀ authors : string,
      EmailTemplate.render (with_authors authors sp) =
      Ok (opening +:+ "🎯 Tema: " +:+ theme sp +:+ PyStr.nl +:+
          coauthors_info (with_authors authors sp) +:+ closing).
Proof.
  destruct sp as [n e t th a0 ty].
  lazymatch eval vm_compute in
    (String.index 0 "🎯 Tema: {theme}" EmailTemplate.TEMPLATE) with
  | Some ?k =>
      let h := eval vm_compute in (substring 0 k EmailTemplate.TEMPLATE) in
      pose (head := h)
  end.
  assert (Hsplit : EmailTemplate.TEMPLATE =
    head +:+ ("🎯 Tema: {theme}" +:+ PyStr.nl) +:+ "{coauthors_info}"
    +:+ closing) by (vm_compute; reflexivity).
  assert (Hhead : ∃ opening, ∀ a,
    format head (EmailTemplate._build_context
                   (with_authors a (mkSpeaker n e t th a0 ty))) = Ok opening).
  { destruct ty; eexists; intros a; lazy; reflexivity. }
  destruct Hhead as [opening Hhead]. exists opening. intros a.
  unfold EmailTemplate.render. rewrite Hsplit.
  rewrite (format_app _ _ _ _ (Hhead a)).
  rewrite (format_app _ ("🎯 Tema: {theme}" +:+ PyStr.nl) _
             ("🎯 Tema: " +:+ th +:+ PyStr.nl)) by (lazy; reflexivity).
  rewrite (format_app _ "{coauthors_info}" _
             (coauthors_info (with_authors a (mkSpeaker n e t th a0 ty))
              +:+ "")).
  2: { unfold coauthors_info, format, EmailTemplate._build_context.
       cbn [with_authors all_authors].
       destruct (PyStr.contains "," a); lazy; reflexivity. }
  assert (Hclosing : ∀ c, format closing c = Ok closing)
    by (intros c; lazy; reflexivity).
  rewrite Hclosing. cbn [mbind result_bind theme].
  by rewrite append_nil_r, !append_assoc.
Qed.

End RenderFacts.

Module CoauthorFacts.
Import CsvParser CsvParserFacts.

Lemma _parse_row_all_authors (row : Row) (speakers : list Speaker)
    (sp : Speaker) :
  _parse_row row = Ok speakers → In sp speakers →
  all_authors sp = joined_authors (_extract_authors row).
Proof.
  unfold _parse_row. destruct (negb _) eqn:Hc; [by intros [= <-] |].
  assert (Hne : _extract_authors row ≠ []).
  { intros Heq. rewrite Heq in Hc. by rewrite !andb_false_r in Hc. }
  destruct (_parse_row_loop_spec (_extract_authors row)
    (PyStr.strip (get row "TEMA"))
    (_get_activity_type (PyStr.strip (get row "ATIVIDADE")))
    (_parse_emails (PyStr.strip (get row "EMAIL"))) Hne 0 [])
    as (l & Hl & _ & Hall & _).
  rewrite Hl. intros [= <-] Hin.
  rewrite Forall_forall in Hall.
  apply list_elem_of_In in Hin. by destruct (Hall sp Hin) as (_ & _ & ? & _).
Qed.

Lemma join_has_comma (a1 a2 : string) (l : list string) :
  PyStr.contains "," (PyStr.join ", " (a1 :: a2 :: l)) = true.
Proof.
  unfold PyStr.join. cbn [String.concat].
  rewrite RenderFacts.contains_app.
  rewrite (RenderFacts.append_cons "," " ").
  cbn [PyStr.contains]. by rewrite orb_true_r.
Qed.

End CoauthorFacts.

(** C4, as the code has it. The rendered message is a text that does not
    depend on the author string, up to and including the line of the
    theme, then the co-author slot, then the closing text; the slot is the
    line "👥 Coautores: " with the author string when that string has a
    comma, and empty otherwise. The record of a row with more than one
    author carries all the names joined with ", ", which has a comma; the
    record of a row with one author carries that name as it is. *)
Theorem coauthor_line_iff_comma :
  (∀ sp : Speaker,
     ∃ opening : string,
       ∀ authors : string,
         EmailTemplate.render (with_authors authors sp) =
         Ok (opening +:+ "🎯 Tema: " +:+ theme sp +:+ PyStr.nl +:+
             (if PyStr.contains "," authors
              then PyStr.nl +:+ "👥 Coautores: " +:+ authors
              else "") +:+ closing))
  ∧ (∀ (row : CsvParser.Row) (speakers : list Speaker) (sp : Speaker),
       CsvParser._parse_row row = Ok speakers →
       In sp speakers →
       ((1 < length (CsvParser._extract_authors row))%nat →
        all_authors sp = PyStr.join ", " (CsvParser._extract_authors row)
        ∧ PyStr.contains "," (all_authors sp) = true)
       ∧ (∀ a : string,
            CsvParser._extract_authors row = [a] → all_authors sp = a)).
Proof.
  split.
  - intros sp. destruct (RenderFacts.render_around_slot sp) as [opening H].
    exists opening. intros authors. rewrite H. reflexivity.
  - intros row speakers sp Hrow Hin.
    pose proof (CoauthorFacts._parse_row_all_authors row speakers sp Hrow Hin)
      as Hall.
    unfold joined_authors in Hall. split.
    + intros Hlen. apply Nat.ltb_lt in Hlen as Hlen'. rewrite Hlen' in Hall.
      split; [done |]. rewrite Hall.
      destruct (CsvParser._extract_authors row) as [| a1 [| a2 l]];
        [simpl in Hlen; lia.. |].
      apply CoauthorFacts.join_has_comma.
    + intros a Ha. rewrite Ha in Hall. exact Hall.
Qed.

Lemma coauthor_line_iff_comma_witness :
  all_authors dee_tutorial = "Carl, Dee"
  ∧ PyStr.contains "," (all_authors dee_tutorial) = true.
Proof.
  apply (proj1 (proj2 coauthor_line_iff_comma row_two_authors
                  [mkSpeaker "Carl" "carl@x.com" "Intro to Types"
                     "Intro to Types" "Carl, Dee" TUTORIAL; dee_tutorial]
                  dee_tutorial eq_refl (or_intror (or_introl eq_refl)))).
  vm_compute. lia.
Defined.

(** C4 as stated fails: the row has one author, whose name has a comma,
    and the message rendered for its record has the co-author line. *)
Lemma single_author_with_comma_counterexample :
  CsvParser._extract_authors row_comma = ["Silva, Ana"]
  ∧ CsvParser._parse_row row_comma = Ok [ana_talk]
  ∧ match EmailTemplate.render ana_talk with
    | Ok body =>
        String.index 0
          (PyStr.nl +:+ "👥 Coautores: Silva, Ana" +:+ PyStr.nl) body ≠ None
    | Raise _ => False
    end.
Proof.
  split_and!; [vm_compute; reflexivity.. |].
  vm_compute. discriminate.
Qed.

(** With an author string without comma the place of the co-author line
    stays in the message as an empty line of its own. *)
Remark no_comma_leaves_empty_line (sp : Speaker) :
  PyStr.contains "," (all_authors sp) = false →
  ∃ opening : string,
    EmailTemplate.render sp =
    Ok (opening +:+ "🎯 Tema: " +:+ theme sp +:+ PyStr.nl +:+ PyStr.nl +:+
        PyStr.nl +:+
        "Ficamos à disposição para qualquer dúvida e ansiosos pela sua confirmação!"
        +:+ PyStr.nl +:+ PyStr.nl +:+ "Atenciosamente," +:+ PyStr.nl +:+
        "    Equipe Organizadora" +:+ PyStr.nl +:+
        "    Contato: contato@evento.org | Site: https://evento.org").
Proof.
  intros Hc. destruct (RenderFacts.render_around_slot sp) as [opening H].
  exists opening. specialize (H (all_authors sp)).
  replace (with_authors (all_authors sp) sp) with sp in H
    by by destruct sp.
  rewrite H. unfold coauthors_info, EmailTemplate._build_context.
  rewrite Hc. reflexivity.
Qed.

(** ** The processing loop *)

Module TraceFacts.

Lemma sends_once_nil : sends_once [].
Proof. intros i j sp sp' b b' ok _ H. by rewrite lookup_nil in H. Qed.

Lemma sends_once_cons (e : Event) (evs : list Event) :
  sends_once evs →
  (∀ sp b, e = Send sp b true →
     ∀ sp' b' ok, In (Send sp' b' ok) evs → title sp' ≠ title sp) →
  sends_once (e :: evs).
Proof.
  intros Hevs Hcross i j sp sp' b b' ok Hij Hi Hj.
  destruct j as [| j]; [lia |]. simpl in Hj.
  destruct i as [| i].
  - simpl in Hi. injection Hi as ->.
    eapply Hcross; [done |].
    apply list_elem_of_In, list_elem_of_lookup. eauto.
  - simpl in Hi. eapply (Hevs i j); [lia | done | done].
Qed.

Lemma sends_once_app (evs1 evs2 : list Event) :
  sends_once evs1 → sends_once evs2 →
  (∀ sp b sp' b' ok,
     In (Send sp b true) evs1 → In (Send sp' b' ok) evs2 →
     title sp' ≠ title sp) →
  sends_once (evs1 ++ evs2).
Proof.
  intros H1 H2 Hcross i j sp sp' b b' ok Hij Hi Hj.
  apply lookup_app_Some in Hi as [Hi | [Hlen Hi]];
    apply lookup_app_Some in Hj as [Hj | [Hlen' Hj]].
  - by eapply (H1 i j).
  - eapply Hcross; apply list_elem_of_In, list_elem_of_lookup; eauto.
  - apply lookup_lt_Some in Hj. lia.
  - eapply (H2 (i - length evs1) (j - length evs1))%nat; [lia | done | done].
Qed.

End TraceFacts.

Section ProcessFacts.

Variable now : nat → string.
Variable smtp : nat → Speaker → string → option string.

Lemma _send_to_speaker_run (sp : Speaker) (dry_run : bool) (s : State) :
  _send_to_speaker now smtp sp dry_run s =
  if PySet.mem (JStr (title sp)) (sent_titles s) then
    (Ok true, set_trace (trace s ++ [already_line sp]) s)
  else
    match EmailTemplate.render sp with
    | Raise e => (Raise e, set_trace (trace s ++ [Render sp]) s)
    | Ok body =>
        if dry_run then
          (Ok true, set_trace (trace s ++ [Render sp; would_send_line sp]) s)
        else
          match smtp (sends s) sp body with
          | Some e =>
              (Ok false,
               set_trace (trace s ++ [Render sp; Send sp body false;
                                      failure_line sp e])
                 (set_sends (S (sends s)) s))
          | None =>
              match save now sp
                      (set_trace (trace s ++ [Render sp; Send sp body true;
                                              sent_line sp; Save sp])
                         (set_sends (S (sends s)) s)) with
              | (Ok _, s2) =>
                  (Ok true,
                   set_sent_titles
                     (PySet.insert (JStr (title sp)) (sent_titles s2)) s2)
              | (Raise e, s2) => (Raise e, s2)
              end
          end
    end.
Proof.
  unfold _send_to_speaker, is_sent. mrun.
  destruct (PySet.mem _ _); mrun; [by mstate |].
  destruct (EmailTemplate.render sp) as [body | e]; mrun; [| done].
  destruct dry_run; mrun; [by mstate |].
  unfold send. mrun.
  destruct (smtp (sends s) sp body) as [e |]; mrun; [by mstate |].
  unfold mark_sent. mstate.
  destruct (save now sp _) as [[[] | e] s2]; mrun; done.
Qed.

Ltac in_list H :=
  simpl in H; repeat (destruct H as [H | H]); try done; try discriminate H.

Ltac solve_once :=
  repeat first
    [ apply TraceFacts.sends_once_nil
    | apply TraceFacts.sends_once_cons;
      [| let Heq := fresh in let Hin := fresh in
         intros ? ? Heq; try discriminate Heq;
         intros ? ? ? Hin; in_list Hin ] ].

Lemma step_spec (sp : Speaker) (dry_run : bool) (s s' : State)
    (r : Result bool) :
  _send_to_speaker now smtp sp dry_run s = (r, s') →
  ∃ evs : list Event,
    trace s' = trace s ++ evs
    ∧ Forall (about sp) evs
    ∧ sends_once evs
    ∧ (∀ x, PySet.mem x (sent_titles s) = true →
            PySet.mem x (sent_titles s') = true)
    ∧ (∀ sp' b ok, In (Send sp' b ok) evs →
         PySet.mem (JStr (title sp')) (sent_titles s) = false)
    ∧ (∀ sp' b c, In (Send sp' b true) evs → r = Ok c →
         PySet.mem (JStr (title sp')) (sent_titles s') = true)
    ∧ (PySet.mem (JStr (title sp)) (sent_titles s) = true →
       evs = [already_line sp] ∧ r = Ok true).
Proof.
  rewrite _send_to_speaker_run.
  destruct (PySet.mem _ _) eqn:Hmem.
  { intros [= <- <-]. exists [already_line sp].
    split_and!; [done | by repeat constructor | solve_once | done | | | done];
      intros ? ? ? Hin; in_list Hin. }
  destruct (EmailTemplate.render sp) as [body | e].
  2: { intros [= <- <-]. exists [Render sp].
       split_and!; [done | by repeat constructor | solve_once | done | | | done];
         intros ? ? ? Hin; in_list Hin. }
  destruct dry_run.
  { intros [= <- <-]. exists [Render sp; would_send_line sp].
    split_and!; [done | by repeat constructor | solve_once | done | | | done];
      intros ? ? ? Hin; in_list Hin. }
  destruct (smtp (sends s) sp body) as [e |].
  { intros [= <- <-].
    exists [Render sp; Send sp body false; failure_line sp e].
    split_and!; [done | by repeat constructor | solve_once | done | | | done];
      intros ? ? ? Hin; in_list Hin.
    by injection Hin as <- _ _. }
  destruct (save now sp _) as [[[] | e] s2] eqn:Hsave.
  - apply save_Ok_inv in Hsave as (m & titles & details & _ & _ & _ & ->).
    intros [= <- <-]. eexists [Render sp; Send sp body true; sent_line sp;
                               Save sp; WriteFile _].
    split_and!.
    + cbn. by rewrite <- app_assoc.
    + by repeat constructor.
    + solve_once.
    + intros x Hx. cbn. by apply PySetFacts.mem_insert_mono.
    + intros ? ? ? Hin; in_list Hin. by injection Hin as <- _ _.
    + intros ? ? ? Hin _; in_list Hin. injection Hin as <- _.
      cbn. by apply PySetFacts.mem_insert.
    + done.
  - apply save_Raise_inv in Hsave as (_ & Htr & Hst & _).
    intros [= <- <-].
    exists [Render sp; Send sp body true; sent_line sp; Save sp].
    split_and!.
    + by rewrite Htr.
    + by repeat constructor.
    + solve_once.
    + intros x Hx. by rewrite Hst.
    + intros ? ? ? Hin; in_list Hin. by injection Hin as <- _ _.
    + intros ? ? ? _ Hr. done.
    + done.
Qed.

Lemma loop_spec (total : nat) (dry_run : bool) (rest : list Speaker) :
  ∀ (i success failures : nat) (s s' : State) (r : Result (nat * nat)),
    _process_speakers_loop now smtp total dry_run i rest success failures s
      = (r, s') →
    ∃ blocks : list (list Event),
      trace s' = trace s ++ concat blocks
      ∧ (length blocks ≤ length rest)%nat
      ∧ (∀ c, r = Ok c → length blocks = length rest)
      ∧ (∀ k sp blk,
           rest !! k = Some sp → blocks !! k = Some blk →
           ∃ evs, blk = Log INFO (processing_line (i + k) total sp) :: evs
                  ∧ Forall (about sp) evs)
      ∧ sends_once (concat blocks)
      ∧ (∀ x, PySet.mem x (sent_titles s) = true →
              PySet.mem x (sent_titles s') = true)
      ∧ (∀ sp' b ok, In (Send sp' b ok) (concat blocks) →
           PySet.mem (JStr (title sp')) (sent_titles s) = false)
      ∧ (∀ k sp blk,
           rest !! k = Some sp → blocks !! k = Some blk →
           PySet.mem (JStr (title sp)) (sent_titles s) = true
           ∨ (∃ k0 blk0 sp0 b,
                (k0 < k)%nat ∧ blocks !! k0 = Some blk0
                ∧ In (Send sp0 b true) blk0 ∧ title sp0 = title sp) →
           ∃ pause,
             blk = Log INFO (processing_line (i + k) total sp)
                   :: already_line sp :: pause
             ∧ Forall (λ e, e = Sleep 2) pause).
Proof.
  induction rest as [| sp rest IH]; intros i success failures s s' r.
  - cbn. intros [= <- <-]. exists [].
    split_and!; try done.
    cbn. by rewrite app_nil_r.
  - cbn [_process_speakers_loop]. mrun.
    destruct (_send_to_speaker now smtp sp dry_run _) as [r1 s1] eqn:Hstep.
    apply step_spec in Hstep
      as (evs & Htr & Habout & Honce & Hmono & Hunseen & Hseen & Hskip).
    cbn [trace set_trace] in Htr.
    cbn [sent_titles set_trace] in Hmono, Hunseen, Hskip.
    destruct r1 as [ok | e].
    2: { intros [= <- <-].
         exists [Log INFO (processing_line i total sp) :: evs].
         split_and!.
         - rewrite Htr. cbn. by rewrite app_nil_r, <- app_assoc.
         - cbn. lia.
         - done.
         - intros [| k] sp' blk Hk Hb; [| done].
           injection Hk as <-. injection Hb as <-.
           rewrite Nat.add_0_r. by exists evs.
         - cbn. rewrite app_nil_r.
           apply TraceFacts.sends_once_cons; [done | done].
         - done.
         - cbn. rewrite app_nil_r. intros sp' b ok [Hin | Hin]; [done |].
           by eapply Hunseen.
         - intros [| k] sp' blk Hk Hb; [| done].
           injection Hk as <-. intros [Hm | (k0 & _ & _ & _ & Hk0 & _)];
             [| lia].
           by destruct (Hskip Hm). }
    set (pause := if negb dry_run && (i <? total)%nat
                  then [Sleep 2] else []).
    assert (Hpause : ∀ {A} (k : M A),
      ((if negb dry_run && (i <? total)%nat then emit (Sleep 2) else mret tt)
         ≫= λ _, k) s1
      = k (set_trace (trace s1 ++ pause) s1)).
    { intros A k. rewrite run_bind. subst pause.
      destruct (negb dry_run && (i <? total)%nat); mrun; [done |].
      rewrite app_nil_r. by destruct s1. }
    rewrite Hpause. intros Hloop.
    apply IH in Hloop
      as (blocks & Htr' & Hlen & Hfull & Hblocks & Honce' & Hmono' & Hunseen'
          & Hskip').
    cbn [trace set_trace sent_titles] in Htr', Hmono', Hunseen', Hskip'.
    exists ((Log INFO (processing_line i total sp) :: evs ++ pause) :: blocks).
    assert (Hquiet : ∀ sp' b ok', In (Send sp' b ok') (evs ++ pause) →
                                  In (Send sp' b ok') evs).
    { intros sp' b ok' Hin. apply in_app_or in Hin as [Hin | Hin]; [done |].
      subst pause. destruct (negb dry_run && (i <? total)%nat);
        simpl in Hin; [by destruct Hin | done]. }
    split_and!.
    + rewrite Htr', Htr. cbn. by rewrite <- !app_assoc.
    + cbn. lia.
    + intros c Hc. cbn. by rewrite (Hfull c Hc).
    + intros [| k] sp' blk Hk Hb.
      * injection Hk as <-. injection Hb as <-. rewrite Nat.add_0_r.
        eexists. split; [done |]. apply Forall_app. split; [done |].
        subst pause. destruct (negb dry_run && (i <? total)%nat);
          by repeat constructor.
      * cbn in Hk, Hb. destruct (Hblocks k sp' blk Hk Hb) as (evs' & ? & ?).
        exists evs'. split; [| done]. by rewrite Nat.add_succ_r.
    + cbn [concat]. apply TraceFacts.sends_once_app; [| done |].
      * apply TraceFacts.sends_once_cons; [| done].
        apply TraceFacts.sends_once_app; [done | |].
        -- subst pause. destruct (negb dry_run && (i <? total)%nat).
           ++ apply TraceFacts.sends_once_cons;
                [apply TraceFacts.sends_once_nil | done].
           ++ apply TraceFacts.sends_once_nil.
        -- intros ? ? ? ? ? _ Hin. subst pause.
           destruct (negb dry_run && (i <? total)%nat);
             simpl in Hin; [by destruct Hin | done].
      * intros sp1 b1 sp2 b2 ok2 [Hin1 | Hin1] Hin2; [done |].
        apply Hquiet in Hin1.
        pose proof (Hseen sp1 b1 ok Hin1 eq_refl) as Hs1.
        pose proof (Hunseen' sp2 b2 ok2 Hin2) as Hs2.
        intros Heq. rewrite Heq in Hs2. congruence.
    + intros x Hx. by apply Hmono', Hmono.
    + cbn [concat]. intros sp' b ok' Hin.
      apply in_app_or in Hin as [[Hin | Hin] | Hin]; [done | |].
      * by eapply Hunseen, Hquiet.
      * destruct (PySet.mem (JStr (title sp')) (sent_titles s)) eqn:Hm;
          [| done].
        apply Hmono in Hm. by rewrite (Hunseen' _ _ _ Hin) in Hm.
    + assert (Hpause_sleep : Forall (λ e, e = Sleep 2) pause).
      { subst pause. destruct (negb dry_run && (i <? total)%nat);
          by repeat constructor. }
      intros [| k] sp' blk Hk Hb Hbefore.
      * injection Hk as <-. injection Hb as <-. rewrite Nat.add_0_r.
        destruct Hbefore as [Hm | (k0 & _ & _ & _ & Hk0 & _)]; [| lia].
        destruct (Hskip Hm) as [-> _]. by exists pause.
      * cbn in Hk, Hb. rewrite Nat.add_succ_r.
        apply (Hskip' k sp' blk Hk Hb).
        destruct Hbefore as [Hm | (k0 & blk0 & sp0 & b & Hk0 & Hb0 & Hin & Ht)].
        -- left. by apply Hmono.
        -- destruct k0 as [| k0].
           ++ left. injection Hb0 as <-. destruct Hin as [Hin | Hin]; [done |].
              apply Hquiet in Hin. rewrite <- Ht.
              by apply (Hseen sp0 b ok Hin).
           ++ right. exists k0, blk0, sp0, b.
              split_and!; [lia | done | done | done].
Qed.

End ProcessFacts.

Section ProcessClaims.

Variable now : nat → string.
Variable smtp : nat → Speaker → string → option string.

Lemma display_summary_run (success failures : nat) (s : State) :
  _display_summary success failures s =
  (Ok tt,
   set_trace
     (trace s ++
      [Log INFO (PyStr.nl +:+ "==================================================");
       Log INFO "📊 RESUMO:";
       Log INFO ("✅ Enviados com sucesso: " +:+ PyStr.of_nat success);
       Log INFO ("❌ Falhas: " +:+ PyStr.of_nat failures)]) s).
Proof. unfold _display_summary. mrun. by mstate. Qed.

Lemma loop_dry (total : nat) (rest : list Speaker) :
  ∀ (i success failures : nat) (s : State),
    ∃ evs : list Event,
      _process_speakers_loop now smtp total true i rest success failures s =
        (Ok ((success + length rest)%nat, failures),
         set_trace (trace s ++ evs) s)
      ∧ Forall log_or_render evs.
Proof.
  induction rest as [| sp rest IH]; intros i success failures s.
  - exists []. cbn. rewrite Nat.add_0_r, app_nil_r. by destruct s.
  - cbn [_process_speakers_loop]. mrun.
    rewrite _send_to_speaker_run.
    destruct (EmailTemplateFacts.render_total sp) as [body ->].
    cbn [sent_titles set_trace].
    destruct (PySet.mem _ _); mrun; mstate.
    + edestruct (IH (S i) (S success) failures) as (evs & -> & Hevs).
      eexists (_ :: _ :: evs). mstate.
      split; [by rewrite Nat.add_succ_r | by repeat constructor].
    + edestruct (IH (S i) (S success) failures) as (evs & -> & Hevs).
      eexists (_ :: _ :: _ :: evs). mstate.
      split; [by rewrite Nat.add_succ_r | by repeat constructor].
Qed.

(** C3. The processing loop in dry-run mode returns, counts every record
    as a success and none as a failure, and only logs and renders: it
    makes no dispatch, calls no [save], writes no file and does not
    sleep. The state after it is the state before it with a longer
    trace: the history file, the loaded structure and the manager's set
    of titles are the same. *)
Theorem dry_run_changes_nothing (speakers : list Speaker) (s : State) :
  ∃ evs : list Event,
    _process_speakers now smtp speakers true s =
      (Ok tt,
       set_trace
         (trace s ++ evs ++
          [Log INFO (PyStr.nl +:+ "==================================================");
           Log INFO "📊 RESUMO:";
           Log INFO ("✅ Enviados com sucesso: "
                     +:+ PyStr.of_nat (length speakers));
           Log INFO ("❌ Falhas: " +:+ PyStr.of_nat 0)]) s)
    ∧ Forall log_or_render evs
    ∧ _process_speakers_loop now smtp (length speakers) true 1 speakers 0 0 s
      = (Ok (length speakers, 0%nat), set_trace (trace s ++ evs) s)
    ∧ file (snd (_process_speakers now smtp speakers true s)) = file s
    ∧ _data (snd (_process_speakers now smtp speakers true s)) = _data s
    ∧ sent_titles (snd (_process_speakers now smtp speakers true s))
      = sent_titles s.
Proof.
  destruct (loop_dry (length speakers) speakers 1 0 0 s) as (evs & Hloop & Hevs).
  cbn [Nat.add] in Hloop.
  assert (Hrun : _process_speakers now smtp speakers true s =
    (Ok tt,
     set_trace
       (trace s ++ evs ++
        [Log INFO (PyStr.nl +:+ "==================================================");
         Log INFO "📊 RESUMO:";
         Log INFO ("✅ Enviados com sucesso: "
                   +:+ PyStr.of_nat (length speakers));
         Log INFO ("❌ Falhas: " +:+ PyStr.of_nat 0)]) s)).
  { unfold _process_speakers. rewrite run_bind, Hloop.
    rewrite display_summary_run. by mstate. }
  exists evs. rewrite Hrun. by split_and!.
Qed.


End ProcessClaims.



(** * Further properties *)

(** ** The parser *)

Lemma _extract_authors_columns (row : CsvParser.Row) :
  CsvParser._extract_authors row = filter (λ a, a ≠ "") (author_columns row).
Proof.
  unfold CsvParser._extract_authors, author_columns.
  cbn [seq CsvParser._extract_authors_loop].
  change ("AUTOR" +:+ PyStr.of_nat 1) with "AUTOR1".
  change ("AUTOR" +:+ PyStr.of_nat 2) with "AUTOR2".
  change ("AUTOR" +:+ PyStr.of_nat 3) with "AUTOR3".
  destruct (PyStr.strip (CsvParser.get row "AUTOR1")) as [| c1 a1];
    destruct (PyStr.strip (CsvParser.get row "AUTOR2")) as [| c2 a2];
    destruct (PyStr.strip (CsvParser.get row "AUTOR3")) as [| c3 a3];
    reflexivity.
Qed.

Lemma _extract_authors_nonempty (row : CsvParser.Row) :
  Forall (λ a, a ≠ "") (CsvParser._extract_authors row).
Proof.
  rewrite _extract_authors_columns.
  apply Forall_forall. intros a Ha. by apply list_elem_of_filter in Ha as [? _].
Qed.

(** X1. The authors of a row are the author columns that are not empty
    after trimming, in the order of the columns: there are at most three,
    none is empty, and a blank column leaves no gap. *)
Theorem extract_authors_are_filled_columns (row : CsvParser.Row) :
  CsvParser._extract_authors row = filter (λ a, a ≠ "") (author_columns row)
  ∧ (length (CsvParser._extract_authors row) ≤ 3)%nat
  ∧ Forall (λ a, a ≠ "") (CsvParser._extract_authors row).
Proof.
  rewrite _extract_authors_columns. split_and!.
  - done.
  - etransitivity; [apply length_filter |]. done.
  - rewrite <- _extract_authors_columns. apply _extract_authors_nonempty.
Qed.

Lemma index_elem_of {A} (l : list A) (i : nat) (x : A) :
  CsvParser.index l i = Ok x → x ∈ l.
Proof.
  unfold CsvParser.index. destruct (l !! i) eqn:H; [| done].
  intros [= <-]. by eapply list_elem_of_lookup_2.
Qed.

Lemma _parse_row_loop_names authors th ty emails :
  ∀ i acc l,
    CsvParser._parse_row_loop authors th ty i emails acc = Ok l →
    Forall (λ sp, name sp ∈ authors) acc →
    Forall (λ sp, name sp ∈ authors) l.
Proof.
  induction emails as [| e emails IH]; intros i acc l; simpl.
  - by intros [= <-].
  - destruct (PyStr.contains "@" e); [| apply IH].
    destruct (if (i <? length authors)%nat then CsvParser.index authors i
              else CsvParser.index authors 0) as [a | err] eqn:Ha; [| done].
    destruct (if (1 <? length authors)%nat then Ok (PyStr.join ", " authors)
              else CsvParser.index authors 0) as [j | err]; [| done].
    cbn [mbind result_bind]. intros H Hacc. apply (IH _ _ _ H).
    apply Forall_app. split; [done |]. constructor; [| done]. simpl.
    destruct (i <? length authors)%nat; by eapply index_elem_of.
Qed.

(** What [_parse_row] returns for a complete row, and nothing for the
    others. *)
Lemma _parse_row_records (row : CsvParser.Row) (speakers : list Speaker) :
  CsvParser._parse_row row = Ok speakers →
  speakers = []
  ∨ (activity_of row ≠ "" ∧ theme_of row ≠ "" ∧ email_of row ≠ ""
     ∧ CsvParser._extract_authors row ≠ []
     ∧ CsvParser._parse_row_loop (CsvParser._extract_authors row) (theme_of row)
         (CsvParser._get_activity_type (activity_of row)) 0
         (CsvParser._parse_emails (email_of row)) [] = Ok speakers).
Proof.
  unfold CsvParser._parse_row.
  fold (activity_of row) (theme_of row) (email_of row).
  destruct (activity_of row) eqn:Ha; [intros [= <-]; by left |].
  destruct (theme_of row) eqn:Ht; [intros [= <-]; by left |].
  destruct (email_of row) eqn:He; [intros [= <-]; by left |].
  destruct (CsvParser._extract_authors row) eqn:Hau; [intros [= <-]; by left |].
  cbn. intros H. right. by split_and!.
Qed.

(** X2. Every record of a row is addressed to one of the addresses of the
    e-mail field that has an at sign, and is named after one of the authors
    of the row; the name is not empty. There are no more records than
    addresses, and at most one when the e-mail field has no comma. *)
Theorem parse_row_records_are_addressed (row : CsvParser.Row)
    (speakers : list Speaker) :
  CsvParser._parse_row row = Ok speakers →
  Forall (λ sp,
            PyStr.contains "@" (email sp) = true
            ∧ email sp ∈ CsvParser._parse_emails (email_of row)
            ∧ name sp ∈ CsvParser._extract_authors row
            ∧ name sp ≠ "") speakers
  ∧ (length speakers ≤ length (CsvParser._parse_emails (email_of row)))%nat
  ∧ (PyStr.contains "," (email_of row) = false → (length speakers ≤ 1)%nat).
Proof.
  intros H.
  assert (Hlen : (length speakers
                  ≤ length (CsvParser._parse_emails (email_of row)))%nat
                 → PyStr.contains "," (email_of row) = false
                 → (length speakers ≤ 1)%nat).
  { unfold CsvParser._parse_emails. intros Hle Hc. by rewrite Hc in Hle. }
  apply _parse_row_records in H as [-> | (Ha & Ht & He & Hau & H)].
  { split_and!; [constructor | simpl; lia | simpl; lia]. }
  cut (Forall (λ sp,
            PyStr.contains "@" (email sp) = true
            ∧ email sp ∈ CsvParser._parse_emails (email_of row)
            ∧ name sp ∈ CsvParser._extract_authors row
            ∧ name sp ≠ "") speakers
       ∧ (length speakers
          ≤ length (CsvParser._parse_emails (email_of row)))%nat).
  { intros [H1 H2]. split_and!; [done | done | by apply Hlen]. }
  destruct (CsvParserFacts._parse_row_loop_spec
    (CsvParser._extract_authors row) (theme_of row)
    (CsvParser._get_activity_type (activity_of row))
    (CsvParser._parse_emails (email_of row)) Hau 0 [])
    as (l & Hl & Hmap & _ & _).
  rewrite H in Hl. injection Hl as ->.
  pose proof (_parse_row_loop_names _ _ _ _ _ _ _ H (Forall_nil_2 _)) as Hnames.
  split.
  - apply Forall_forall. intros sp Hsp.
    assert (Hin : email sp ∈ filter (λ e, PyStr.contains "@" e = true)
                    (CsvParser._parse_emails (email_of row))).
    { rewrite <- Hmap. apply list_elem_of_fmap. by exists sp. }
    apply list_elem_of_filter in Hin as [Hat Hin].
    rewrite Forall_forall in Hnames. specialize (Hnames sp Hsp).
    split_and!; [done | done | done |].
    pose proof (_extract_authors_nonempty row) as Hne.
    rewrite Forall_forall in Hne. by apply Hne.
  - rewrite <- (length_map email), Hmap. apply length_filter.
Qed.

Lemma parse_row_records_are_addressed_witness :
  Forall (λ sp,
            PyStr.contains "@" (email sp) = true
            ∧ email sp ∈ ["carl@x.com"; "sem arroba"; "dee@y.com"]
            ∧ name sp ∈ ["Carl"; "Dee"]
            ∧ name sp ≠ "")
    [mkSpeaker "Carl" "carl@x.com" "Intro to Types" "Intro to Types"
       "Carl, Dee" TUTORIAL;
     mkSpeaker "Carl" "dee@y.com" "Intro to Types" "Intro to Types"
       "Carl, Dee" TUTORIAL].
Proof.
  apply (parse_row_records_are_addressed row_gap).
  vm_compute. reflexivity.
Defined.

(** X3. The records of a row are the records of one submission: they have
    the trimmed theme of the row as title and as theme, which is not empty,
    the same author string (the single author, or all authors joined with
    ", "), and the same activity type, which is that of the trimmed
    activity column. *)
Theorem parse_row_records_share_submission (row : CsvParser.Row)
    (speakers : list Speaker) :
  CsvParser._parse_row row = Ok speakers →
  Forall (λ sp,
            title sp = theme_of row
            ∧ theme sp = theme_of row
            ∧ theme_of row ≠ ""
            ∧ all_authors sp = joined_authors (CsvParser._extract_authors row)
            ∧ activity_type sp = CsvParser._get_activity_type (activity_of row))
    speakers.
Proof.
  intros H. apply _parse_row_records in H as [-> | (Ha & Ht & He & Hau & H)];
    [constructor |].
  destruct (CsvParserFacts._parse_row_loop_spec
    (CsvParser._extract_authors row) (theme_of row)
    (CsvParser._get_activity_type (activity_of row))
    (CsvParser._parse_emails (email_of row)) Hau 0 [])
    as (l & Hl & _ & Hall & _).
  rewrite H in Hl. injection Hl as ->.
  eapply Forall_impl; [exact Hall |].
  intros sp (? & ? & ? & ?). by split_and!.
Qed.

Lemma parse_row_records_share_submission_witness :
  Forall (λ sp,
            title sp = "Intro to Types" ∧ theme sp = "Intro to Types"
            ∧ "Intro to Types" ≠ "" ∧ all_authors sp = "Carl, Dee"
            ∧ activity_type sp = TUTORIAL)
    [mkSpeaker "Carl" "carl@x.com" "Intro to Types" "Intro to Types"
       "Carl, Dee" TUTORIAL;
     mkSpeaker "Carl" "dee@y.com" "Intro to Types" "Intro to Types"
       "Carl, Dee" TUTORIAL].
Proof.
  apply (parse_row_records_share_submission row_gap).
  vm_compute. reflexivity.
Defined.




(** ** The history store *)

Section StoreDurability.

Variable now : nat → string.



(** X7. When [save] returns, the file holds the structure that the store
    has in memory, the structure was written once, the clock was read
    twice, and the manager's set and the count of SMTP sessions are as
    before. *)
Theorem save_writes_what_it_holds (speaker : Speaker) (s s' : State) :
  save now speaker s = (Ok tt, s') →
  file s' = Content (_data s')
  ∧ trace s' = trace s ++ [WriteFile (_data s')]
  ∧ clock s' = S (S (clock s))
  ∧ sent_titles s' = sent_titles s
  ∧ sends s' = sends s.
Proof.
  intros H. apply save_Ok_inv in H as (m & titles & details & _ & _ & _ & ->).
  by split_and!.
Qed.

Lemma mem_insert_inv (t : string) (x : json) (s0 : PySet.t) :
  PySet.mem (JStr t) (PySet.insert x s0) = true →
  x = JStr t ∨ PySet.mem (JStr t) s0 = true.
Proof.
  unfold PySet.insert. destruct (PySet.mem x s0); [by right |].
  rewrite PySetFacts.mem_app. intros H. apply orb_true_iff in H as [H | H];
    [by right |].
  left. unfold PySet.mem in H. cbn [existsb] in H. rewrite orb_false_r in H.
  by apply PySetFacts.py_eqb_str in H.
Qed.

Lemma add_all_mem_inv (l : list json) :
  ∀ (s0 s1 : PySet.t) (t : string),
    PySet.add_all l s0 = Ok s1 →
    PySet.mem (JStr t) s1 = true →
    In (JStr t) l ∨ PySet.mem (JStr t) s0 = true.
Proof.
  induction l as [| y l IH]; intros s0 s1 t; simpl.
  - intros [= <-]. by right.
  - destruct (PySet.add y s0) as [s2 | e] eqn:Hadd; [| done].
    cbn [mbind result_bind]. apply PySetFacts.add_Ok in Hadd as [_ ->].
    intros H Hm. destruct (IH _ _ _ H Hm) as [Hin | Hm2]; [by left; right |].
    apply mem_insert_inv in Hm2 as [-> | Hm2]; [by left; left | by right].
Qed.

Lemma load_saved_titles (m : gmap string json) (titles : PySet.t)
    (details : list json) (speaker : Speaker) (t1 t2 : string) :
  good titles →
  ∃ titles',
    load_data (JObj (saved m titles details speaker t1 t2)) = Ok titles'
    ∧ ∀ t : string,
        PySet.mem (JStr t) titles' = true
        ↔ t = title speaker ∨ PySet.mem (JStr t) titles = true.
Proof.
  intros Hg.
  assert (Hg' : good (PySet.insert (JStr (title speaker)) titles))
    by by apply PySetFacts.good_insert.
  destruct (PySetFacts.add_all_good_id _ Hg') as (s' & Hs' & Hgs').
  exists s'.
  assert (Hiff : ∀ t, PySet.mem (JStr t) s' = true
                      ↔ t = title speaker ∨ PySet.mem (JStr t) titles = true).
  { intros t. split.
    - intros Ht. destruct (add_all_mem_inv _ _ _ _ Hs' Ht) as [Hin | Hm];
        [| done].
      apply PySetFacts.mem_str in Hin.
      apply mem_insert_inv in Hin as [[= ->] | Hin]; [by left | by right].
    - intros Ht. apply (PySetFacts.add_all_spec _ _ _ Hs').
      apply PySetFacts.mem_str.
      destruct Ht as [-> | Ht]; [by apply PySetFacts.mem_insert |].
      by apply PySetFacts.mem_insert_mono. }
  split; [| done].
  unfold load_data, saved.
  rewrite (lookup_insert_ne _ "details" "sent_titles") by done.
  rewrite (lookup_insert_ne _ "last_update" "sent_titles") by done.
  rewrite (lookup_insert_eq _ "sent_titles"). simpl.
  unfold PySet.of_json. simpl. rewrite Hs'. simpl.
  assert (Hne : s' ≠ []).
  { intros ->. by pose proof (proj2 (Hiff (title speaker)) (or_introl eq_refl)). }
  by destruct s'.
Qed.

(** X8. When [save] returns, the titles that a store loads from the new
    structure are the title of the saved record and the titles it loaded
    before: none is lost and no other is added. *)
Theorem save_adds_one_title (speaker : Speaker) (s s' : State) :
  save now speaker s = (Ok tt, s') →
  ∃ before after : PySet.t,
    load_data (_data s) = Ok before
    ∧ load_data (_data s') = Ok after
    ∧ ∀ t : string,
        PySet.mem (JStr t) after = true
        ↔ t = title speaker ∨ PySet.mem (JStr t) before = true.
Proof.
  intros H. apply save_Ok_inv in H as (m & titles & details & Hd & Hl & _ & ->).
  destruct (load_saved_titles m titles details speaker (now (clock s))
              (now (S (clock s))) (load_data_good _ _ Hl)) as (after & Ha & Hiff).
  exists titles, after. rewrite Hd. by split_and!.
Qed.


End StoreDurability.


Lemma save_writes_what_it_holds_witness :
  file (snd (save PyStr.of_nat bob_talk state_v0))
  = Content (_data (snd (save PyStr.of_nat bob_talk state_v0))).
Proof.
  apply (save_writes_what_it_holds PyStr.of_nat bob_talk state_v0).
  vm_compute. reflexivity.
Defined.

Lemma save_adds_one_title_witness :
  ∃ before after : PySet.t,
    load_data (_data state_log_only) = Ok before
    ∧ load_data (_data (snd (save PyStr.of_nat bob_talk state_log_only)))
      = Ok after
    ∧ ∀ t : string,
        PySet.mem (JStr t) after = true
        ↔ t = title bob_talk ∨ PySet.mem (JStr t) before = true.
Proof.
  apply (save_adds_one_title PyStr.of_nat bob_talk state_log_only).
  vm_compute. reflexivity.
Defined.



(** ** The message *)

(** X10. [render] never raises, and the message is the text of the
    template with every field replaced by the value of the record as it
    is: the words that depend on the activity type are chosen together,
    the title stands between double quotes, the theme follows "Tema: ",
    and braces in a value are not read as fields. *)
Theorem render_is_the_filled_template (sp : Speaker) :
  EmailTemplate.render sp = Ok (message sp).
Proof.
  destruct sp as [n e t th a ty].
  unfold EmailTemplate.render, EmailTemplate._build_context, message.
  cbn [name email title theme all_authors activity_type is_tutorial
       activity_display_name].
  destruct ty, (PyStr.contains "," a); lazy; reflexivity.
Qed.

Example render_braces_talk :
  ∃ body, EmailTemplate.render braces_talk = Ok body
          ∧ String.index 0 "Usando {name} em f-strings" body ≠ None
          ∧ String.index 0 "Usando Eva em f-strings" body = None.
Proof.
  eexists. split; [vm_compute; reflexivity |].
  split; vm_compute; [discriminate | reflexivity].
Qed.

(** ** The address of the sheet *)

Module SheetIdFacts.
Import SpreadsheetDownloader.

Lemma take_id_idem (s : string) : take_id (take_id s) = take_id s.
Proof.
  induction s as [| a s IH]; [done |]. cbn [take_id].
  destruct (id_char a) eqn:Ha; [| done]. cbn [take_id]. by rewrite Ha, IH.
Qed.

Lemma take_id_split (s : string) :
  ∃ post, s = take_id s +:+ post ∧ take_id post = "".
Proof.
  induction s as [| a s (post & Hs & Hpost)].
  - by exists "".
  - cbn [take_id]. destruct (id_char a) eqn:Ha.
    + exists post. split; [| done].
      rewrite RenderFacts.append_cons. by rewrite <- Hs.
    + exists (String a s). split; [done |]. cbn [take_id]. by rewrite Ha.
Qed.

Lemma take_id_app (a b : string) :
  take_id a = a → take_id (a +:+ b) = a +:+ take_id b.
Proof.
  induction a as [| c a IH]; [done |]. rewrite RenderFacts.append_cons.
  cbn [take_id]. destruct (id_char c); [| done].
  intros [= H]. rewrite RenderFacts.append_cons. by rewrite (IH H).
Qed.

Lemma after_prefix_Some (p s tail : string) :
  after_prefix p s = Some tail → s = p +:+ tail.
Proof.
  revert s. induction p as [| a p IH]; intros s; cbn [after_prefix].
  - by intros [= ->].
  - destruct s as [| b s]; [done |].
    destruct (Ascii.eqb_spec a b) as [-> | ?]; [| done].
    intros H. rewrite RenderFacts.append_cons. by rewrite (IH _ H).
Qed.

Lemma search_sound (url g : string) :
  search url = Some g →
  g ≠ "" ∧ take_id g = g
  ∧ ∃ pre post, url = pre +:+ "/d/" +:+ g +:+ post ∧ take_id post = "".
Proof.
  induction url as [| a rest IH]; [done |]. cbn [search].
  assert (Hrest : search rest = Some g →
            g ≠ "" ∧ take_id g = g
            ∧ ∃ pre post, String a rest = pre +:+ "/d/" +:+ g +:+ post
                          ∧ take_id post = "").
  { intros H. destruct (IH H) as (? & ? & pre & post & -> & ?).
    split_and!; [done | done |]. by exists (String a pre), post. }
  destruct (after_prefix "/d/" (String a rest)) as [tail |] eqn:Hp; [| done].
  destruct (PyStr.truthy (take_id tail)) eqn:Ht; [| done].
  intros [= <-]. apply after_prefix_Some in Hp.
  destruct (take_id_split tail) as (post & Htail & Hpost).
  split_and!.
  - intros Heq. by rewrite Heq in Ht.
  - apply take_id_idem.
  - exists "", post. rewrite Hp. split; [| done].
    rewrite RenderFacts.append_nil_l. by rewrite <- Htail.
Qed.

End SheetIdFacts.

(** X11. When [extract_sheet_id] returns, the identifier is not empty, is
    made of letters, digits, "-" and "_", and stands in the address right
    after "/d/", up to the first other character. The only exception it
    raises is [ValueError]; it raises it for every address that has no
    "/d/" in it, and then [download] makes no request. *)
Theorem extract_sheet_id_sound (url : string) :
  (∀ g : string,
     SpreadsheetDownloader.extract_sheet_id url = Ok g →
     g ≠ "" ∧ SpreadsheetDownloader.take_id g = g
     ∧ ∃ pre post : string,
         url = pre +:+ "/d/" +:+ g +:+ post
         ∧ SpreadsheetDownloader.take_id post = "")
  ∧ (∀ e : exn,
       SpreadsheetDownloader.extract_sheet_id url = Raise e → e = ValueError)
  ∧ ((∀ pre post : string, url ≠ pre +:+ "/d/" +:+ post) →
     SpreadsheetDownloader.extract_sheet_id url = Raise ValueError
     ∧ SpreadsheetDownloader.csv_url url = Raise ValueError).
Proof.
  unfold SpreadsheetDownloader.csv_url, SpreadsheetDownloader.extract_sheet_id.
  destruct (SpreadsheetDownloader.search url) as [g |] eqn:Hs.
  - destruct (SheetIdFacts.search_sound _ _ Hs) as (H1 & H2 & pre & post & H3 & H4).
    split_and!.
    + intros g' [= <-]. split_and!; [done | done |]. by exists pre, post.
    + done.
    + intros Hno. by destruct (Hno pre (g +:+ post)).
  - split_and!; [done | by intros e [= <-] | done].
Qed.

Lemma extract_sheet_id_sound_witness :
  SpreadsheetDownloader.extract_sheet_id "https://example.org/planilha.csv"
  = Raise ValueError.
Proof.
  destruct (extract_sheet_id_sound "https://example.org/planilha.csv")
    as (_ & H & _).
  destruct (SpreadsheetDownloader.extract_sheet_id
              "https://example.org/planilha.csv") as [g | e] eqn:He.
  - vm_compute in He. discriminate He.
  - by rewrite (H e eq_refl).
Defined.

(** X12. For an address of a Google sheet, that is the address
    "https://docs.google.com/spreadsheets/d/" followed by an identifier
    and by anything that does not go on with a character of an identifier,
    [extract_sheet_id] returns the identifier, and the request goes to the
    export address of that identifier; for the export address itself the
    request goes to the same address. *)
Theorem sheet_address_round_trip (sheet_id rest : string) :
  sheet_id ≠ "" →
  SpreadsheetDownloader.take_id sheet_id = sheet_id →
  SpreadsheetDownloader.take_id rest = "" →
  SpreadsheetDownloader.extract_sheet_id
    ("https://docs.google.com/spreadsheets/d/" +:+ sheet_id +:+ rest)
  = Ok sheet_id
  ∧ SpreadsheetDownloader.csv_url
      ("https://docs.google.com/spreadsheets/d/" +:+ sheet_id +:+ rest)
    = Ok ("https://docs.google.com/spreadsheets/d/" +:+ sheet_id
          +:+ "/export?format=csv")
  ∧ SpreadsheetDownloader.csv_url
      ("https://docs.google.com/spreadsheets/d/" +:+ sheet_id
       +:+ "/export?format=csv")
    = Ok ("https://docs.google.com/spreadsheets/d/" +:+ sheet_id
          +:+ "/export?format=csv").
Proof.
  intros Hne Hid Hrest.
  assert (Hgen : ∀ r, SpreadsheetDownloader.take_id r = "" →
    SpreadsheetDownloader.extract_sheet_id
      ("https://docs.google.com/spreadsheets/d/" +:+ sheet_id +:+ r)
    = Ok sheet_id).
  { intros r Hr. unfold SpreadsheetDownloader.extract_sheet_id.
    lazy [String.append SpreadsheetDownloader.search
          SpreadsheetDownloader.after_prefix Ascii.eqb Bool.eqb].
    fold String.append.
    rewrite (SheetIdFacts.take_id_app _ _ Hid), Hr, RenderFacts.append_nil_r.
    destruct sheet_id; [done | done]. }
  split_and!.
  - by apply Hgen.
  - unfold SpreadsheetDownloader.csv_url. by rewrite (Hgen rest Hrest).
  - unfold SpreadsheetDownloader.csv_url. by rewrite (Hgen "/export?format=csv").
Qed.

Lemma sheet_address_round_trip_witness :
  SpreadsheetDownloader.csv_url
    ("https://docs.google.com/spreadsheets/d/" +:+ "1AbC-d_9" +:+ "/edit#gid=0")
  = Ok ("https://docs.google.com/spreadsheets/d/" +:+ "1AbC-d_9"
        +:+ "/export?format=csv").
Proof.
  apply (sheet_address_round_trip "1AbC-d_9" "/edit#gid=0");
    [discriminate | reflexivity | reflexivity].
Defined.

(** ** Counts, pauses and durability of the processing loop *)

Section ProcessCounts.

Variable now : nat → string.
Variable smtp : nat → Speaker → string → option string.

Lemma failed_sends_app (e1 e2 : list Event) :
  failed_sends (e1 ++ e2) = (failed_sends e1 + failed_sends e2)%nat.
Proof. unfold failed_sends. by rewrite List.filter_app, length_app. Qed.

Lemma pauses_app (e1 e2 : list Event) :
  pauses (e1 ++ e2) = (pauses e1 + pauses e2)%nat.
Proof. unfold pauses. by rewrite List.filter_app, length_app. Qed.

Lemma step_counts (sp : Speaker) (dry_run ok : bool) (s s' : State) :
  _send_to_speaker now smtp sp dry_run s = (Ok ok, s') →
  ∃ evs : list Event,
    trace s' = trace s ++ evs
    ∧ failed_sends evs = (if ok then 0 else 1)%nat
    ∧ pauses evs = 0%nat.
Proof.
  rewrite _send_to_speaker_run.
  destruct (PySet.mem _ _).
  { intros [= <- <-]. by eexists [_]. }
  destruct (EmailTemplate.render sp) as [body | e]; [| done].
  destruct dry_run.
  { intros [= <- <-]. by eexists [_; _]. }
  destruct (smtp (sends s) sp body) as [e |].
  { intros [= <- <-]. by eexists [_; _; _]. }
  destruct (save now sp _) as [[[] | e] s2] eqn:Hsave; [| done].
  apply save_Ok_inv in Hsave as (m & titles & details & _ & _ & _ & ->).
  intros [= <- <-]. eexists [_; _; _; _; _].
  split; [cbn; by rewrite <- app_assoc |]. done.
Qed.

Lemma loop_counts (total : nat) (dry_run : bool) (rest : list Speaker) :
  ∀ (i success failures : nat) (s s' : State) (c : nat * nat),
    (i + length rest = S total)%nat →
    _process_speakers_loop now smtp total dry_run i rest success failures s
      = (Ok c, s') →
    ∃ evs : list Event,
      trace s' = trace s ++ evs
      ∧ (fst c + snd c = success + failures + length rest)%nat
      ∧ snd c = (failures + failed_sends evs)%nat
      ∧ pauses evs = (if dry_run then 0 else length rest - 1)%nat.
Proof.
  induction rest as [| sp rest IH]; intros i success failures s s' c Hi.
  - cbn. intros [= <- <-]. exists []. cbn. rewrite app_nil_r.
    split_and!; [done | lia | lia | by destruct dry_run].
  - cbn [_process_speakers_loop]. mrun.
    destruct (_send_to_speaker now smtp sp dry_run _) as [[ok | e] s1] eqn:Hstep;
      [| done].
    apply step_counts in Hstep as (evs & Htr & Hfail & Hnop).
    cbn [trace set_trace] in Htr. cbn [length] in Hi.
    set (p := if negb dry_run && (i <? total)%nat then [Sleep 2] else []).
    assert (Hpause : ∀ {A} (k : M A),
      ((if negb dry_run && (i <? total)%nat then emit (Sleep 2) else mret tt)
         ≫= λ _, k) s1
      = k (set_trace (trace s1 ++ p) s1)).
    { intros A k. rewrite run_bind. subst p.
      destruct (negb dry_run && (i <? total)%nat); mrun; [done |].
      rewrite app_nil_r. by destruct s1. }
    assert (Hfp : failed_sends p = 0%nat)
      by (subst p; by destruct (negb dry_run && (i <? total)%nat)).
    assert (Hpp : pauses p = (if dry_run then 0
                              else if (i <? total)%nat then 1 else 0)%nat)
      by (subst p; by destruct dry_run, (i <? total)%nat).
    rewrite Hpause.
    intros Hloop. apply IH in Hloop as (evs' & Htr' & Hsum & Hf & Hp); [| lia].
    exists (Log INFO (processing_line i total sp) :: evs ++ p ++ evs').
    split_and!.
    + rewrite Htr'. cbn [trace set_trace]. rewrite Htr. cbn.
      by rewrite <- !app_assoc.
    + destruct ok; lia.
    + change (Log INFO (processing_line i total sp) :: evs ++ p ++ evs')
        with ([Log INFO (processing_line i total sp)] ++ evs ++ p ++ evs').
      rewrite !failed_sends_app, Hfail, Hfp. cbn. destruct ok; lia.
    + change (Log INFO (processing_line i total sp) :: evs ++ p ++ evs')
        with ([Log INFO (processing_line i total sp)] ++ evs ++ p ++ evs').
      rewrite !pauses_app, Hnop, Hpp, Hp.
      change (pauses [Log INFO (processing_line i total sp)]) with 0%nat.
      destruct dry_run; [done |].
      destruct (Nat.ltb_spec i total); destruct rest; cbn [length] in *; lia.
Qed.

(** X13. When [_process_speakers] returns, the two counts of its summary
    add up to the number of records: the failures are the dispatches that
    failed, and every other record is counted as a success. *)
Theorem summary_counts_every_record (speakers : list Speaker)
    (dry_run : bool) (s s' : State) :
  _process_speakers now smtp speakers dry_run s = (Ok tt, s') →
  ∃ evs : list Event,
    trace s' =
      trace s ++ evs
      ++ summary_lines (length speakers - failed_sends evs) (failed_sends evs)
    ∧ (failed_sends evs ≤ length speakers)%nat.
Proof.
  unfold _process_speakers. rewrite run_bind.
  destruct (_process_speakers_loop _ _ _ _ _ _ _ _ _) as [[c | e] s1] eqn:Hloop;
    [| done].
  apply loop_counts in Hloop as (evs & Htr & Hsum & Hf & _); [| done].
  rewrite display_summary_run. intros [= <-]. exists evs.
  cbn [trace set_trace]. rewrite Htr, <- app_assoc.
  destruct c as [a b]. cbn [fst snd] in *.
  replace (length speakers - failed_sends evs)%nat with a by lia.
  replace (failed_sends evs) with b by lia.
  split; [done | lia].
Qed.

(** X14. A live loop that returns over [n] records sleeps [n - 1] times:
    after every record but the last, also after a record that was skipped
    or whose dispatch failed. A dry run does not sleep. *)
Theorem pause_after_all_but_last (speakers : list Speaker) (dry_run : bool)
    (s s' : State) (c : nat * nat) :
  _process_speakers_loop now smtp (length speakers) dry_run 1 speakers 0 0 s
    = (Ok c, s') →
  ∃ evs : list Event,
    trace s' = trace s ++ evs
    ∧ pauses evs = (if dry_run then 0 else length speakers - 1)%nat.
Proof.
  intros H. apply loop_counts in H as (evs & Htr & _ & _ & Hp); [| done].
  by exists evs.
Qed.

Lemma step_persist (sp : Speaker) (dry_run ok : bool) (s s' : State) :
  synced s →
  _send_to_speaker now smtp sp dry_run s = (Ok ok, s') →
  ∃ evs : list Event,
    trace s' = trace s ++ evs
    ∧ synced s'
    ∧ (∀ t, persisted t s → persisted t s')
    ∧ (∀ x, PySet.mem x (sent_titles s) = true →
            PySet.mem x (sent_titles s') = true)
    ∧ (∀ sp' b, In (Send sp' b true) evs →
         persisted (title sp') s'
         ∧ PySet.mem (JStr (title sp')) (sent_titles s') = true).
Proof.
  intros Hsync. rewrite _send_to_speaker_run.
  destruct (PySet.mem _ _).
  { intros [= <- <-]. exists [already_line sp].
    split_and!; [done | done | done | done |].
    intros ? ? Hin. simpl in Hin. by destruct Hin. }
  destruct (EmailTemplate.render sp) as [body | e]; [| done].
  destruct dry_run.
  { intros [= <- <-]. exists [Render sp; would_send_line sp].
    split_and!; [done | done | done | done |].
    intros ? ? Hin. simpl in Hin. by destruct Hin as [? | [? | []]]. }
  destruct (smtp (sends s) sp body) as [e |].
  { intros [= <- <-]. exists [Render sp; Send sp body false; failure_line sp e].
    split_and!; [done | done | done | done |].
    intros ? ? Hin. simpl in Hin. by destruct Hin as [? | [? | [? | []]]]. }
  destruct (save now sp _) as [[[] | e] s2] eqn:Hsave; [| done].
  apply save_Ok_inv in Hsave as (m & titles & details & Hd & Hl & _ & ->).
  cbn [_data set_trace set_sends clock] in Hd |- *.
  destruct (load_saved_titles m titles details sp (now (clock s))
              (now (S (clock s))) (load_data_good _ _ Hl))
    as (after & Ha & Hiff).
  intros [= <- <-].
  eexists [Render sp; Send sp body true; sent_line sp; Save sp; WriteFile _].
  assert (Hnew : ∀ t, persisted t
    (set_sent_titles (PySet.insert (JStr (title sp)) (sent_titles s))
       (mkState
          (Content (JObj (saved m titles details sp (now (clock s))
                            (now (S (clock s))))))
          (JObj (saved m titles details sp (now (clock s))
                   (now (S (clock s)))))
          (sent_titles s) (S (S (clock s))) (S (sends s))
          ((trace s ++ [Render sp; Send sp body true; sent_line sp; Save sp])
           ++ [WriteFile (JObj (saved m titles details sp (now (clock s))
                                  (now (S (clock s)))))])))
    ↔ t = title sp ∨ PySet.mem (JStr t) titles = true).
  { intros t. unfold persisted, stored_titles.
    cbn [file set_sent_titles _load_data]. rewrite Ha. apply Hiff. }
  split_and!.
  - cbn. by rewrite <- app_assoc.
  - done.
  - intros t Ht. apply Hnew. right.
    unfold persisted, stored_titles in Ht. rewrite <- Hsync, Hd, Hl in Ht. done.
  - intros x Hx. cbn. by apply PySetFacts.mem_insert_mono.
  - intros sp' b Hin. simpl in Hin.
    destruct Hin as [Hin | [Hin | [Hin | [Hin | [Hin | []]]]]]; try done.
    injection Hin as <- _. split; [apply Hnew; by left |].
    cbn. by apply PySetFacts.mem_insert.
Qed.

Lemma loop_persist (total : nat) (dry_run : bool) (rest : list Speaker) :
  ∀ (i success failures : nat) (s s' : State) (c : nat * nat),
    synced s →
    _process_speakers_loop now smtp total dry_run i rest success failures s
      = (Ok c, s') →
    ∃ evs : list Event,
      trace s' = trace s ++ evs
      ∧ synced s'
      ∧ (∀ t, persisted t s → persisted t s')
      ∧ (∀ x, PySet.mem x (sent_titles s) = true →
              PySet.mem x (sent_titles s') = true)
      ∧ (∀ sp' b, In (Send sp' b true) evs →
           persisted (title sp') s'
           ∧ PySet.mem (JStr (title sp')) (sent_titles s') = true).
Proof.
  induction rest as [| sp rest IH]; intros i success failures s s' c Hsync.
  - cbn. intros [= <- <-]. exists []. rewrite app_nil_r.
    split_and!; [done | done | done | done | by intros ? ? []].
  - cbn [_process_speakers_loop]. mrun.
    destruct (_send_to_speaker now smtp sp dry_run _) as [[ok | e] s1] eqn:Hstep;
      [| done].
    apply step_persist in Hstep as (evs & Htr & Hsync1 & Hmono & Hmem & Hsent);
      [| done].
    cbn [trace set_trace] in Htr.
    set (p := if negb dry_run && (i <? total)%nat then [Sleep 2] else []).
    assert (Hpause : ∀ {A} (k : M A),
      ((if negb dry_run && (i <? total)%nat then emit (Sleep 2) else mret tt)
         ≫= λ _, k) s1
      = k (set_trace (trace s1 ++ p) s1)).
    { intros A k. rewrite run_bind. subst p.
      destruct (negb dry_run && (i <? total)%nat); mrun; [done |].
      rewrite app_nil_r. by destruct s1. }
    rewrite Hpause. intros Hloop.
    apply IH in Hloop as (evs' & Htr' & Hsync' & Hmono' & Hmem' & Hsent');
      [| done].
    exists (Log INFO (processing_line i total sp) :: evs ++ p ++ evs').
    split_and!.
    + rewrite Htr'. cbn [trace set_trace]. rewrite Htr. cbn.
      by rewrite <- !app_assoc.
    + done.
    + intros t Ht. by apply Hmono', Hmono.
    + intros x Hx. by apply Hmem', Hmem.
    + intros sp' b [Hin | Hin]; [done |].
      apply in_app_or in Hin as [Hin | Hin].
      * destruct (Hsent sp' b Hin) as [H1 H2].
        split; [by apply Hmono' | by apply Hmem'].
      * apply in_app_or in Hin as [Hin | Hin]; [| by apply Hsent' with b].
        subst p. destruct (negb dry_run && (i <? total)%nat);
          simpl in Hin; [by destruct Hin | done].
Qed.

(** X15. Over a store that holds in memory what the file holds, when
    [_process_speakers] returns the store still does; every title that was
    in the history file is still in it; and the title of every record that
    was dispatched with success is in the file and in the manager's set,
    so that a store and a manager built anew over the file have it in
    their set. *)
Theorem successful_sends_are_persisted (speakers : list Speaker)
    (dry_run : bool) (s s' : State) :
  synced s →
  _process_speakers now smtp speakers dry_run s = (Ok tt, s') →
  ∃ evs : list Event,
    trace s' = trace s ++ evs
    ∧ synced s'
    ∧ (∀ t : string, persisted t s → persisted t s')
    ∧ (∀ (sp : Speaker) (b : string),
         In (Send sp b true) evs →
         persisted (title sp) s'
         ∧ PySet.mem (JStr (title sp)) (sent_titles s') = true
         ∧ ∃ s'' : State,
             (JsonDataStore_init ≫= λ _, EmailCampaignManager_init) s'
               = (Ok tt, s'')
             ∧ PySet.mem (JStr (title sp)) (sent_titles s'') = true).
Proof.
  intros Hsync. unfold _process_speakers. rewrite run_bind.
  destruct (_process_speakers_loop _ _ _ _ _ _ _ _ _) as [[c | e] s1] eqn:Hloop;
    [| done].
  apply loop_persist in Hloop as (evs & Htr & Hsync1 & Hmono & _ & Hsent);
    [| done].
  rewrite display_summary_run. intros [= <-].
  exists (evs ++ summary_lines (fst c) (snd c)).
  split_and!.
  - cbn [trace set_trace]. by rewrite Htr, <- app_assoc.
  - done.
  - done.
  - intros sp b Hin. apply in_app_or in Hin as [Hin | Hin].
    2: { simpl in Hin. by destruct Hin as [? | [? | [? | [? | []]]]]. }
    destruct (Hsent sp b Hin) as [Hp Hm]. split_and!; [done | done |].
    unfold persisted, stored_titles in Hp. cbn [file set_trace] in Hp.
    destruct (load_data (_load_data (file s1))) as [titles | e] eqn:Hl;
      [| done].
    eexists. split.
    + unfold JsonDataStore_init, EmailCampaignManager_init, load. mrun.
      rewrite Hl. mrun. reflexivity.
    + exact Hp.
Qed.

(** X16. [_send_to_speaker] returns [False] only in live mode, after a
    session that the server refused: the message is rendered, one failed
    dispatch and one error line are recorded, and nothing is saved; the
    history file, the loaded structure and the manager's set are as
    before, so that the title is still new for the next selection. *)
Theorem failed_dispatch_is_retried (sp : Speaker) (dry_run : bool)
    (s s' : State) :
  _send_to_speaker now smtp sp dry_run s = (Ok false, s') →
  dry_run = false
  ∧ (∃ (body e : string),
       EmailTemplate.render sp = Ok body
       ∧ smtp (sends s) sp body = Some e
       ∧ trace s' = trace s ++ [Render sp; Send sp body false; failure_line sp e])
  ∧ file s' = file s ∧ _data s' = _data s ∧ sent_titles s' = sent_titles s
  ∧ sends s' = S (sends s)
  ∧ new_records (sent_titles s') [sp] = [sp].
Proof.
  rewrite _send_to_speaker_run.
  destruct (PySet.mem _ _) eqn:Hmem; [done |].
  destruct (EmailTemplate.render sp) as [body | e]; [| done].
  destruct dry_run; [done |].
  destruct (smtp (sends s) sp body) as [e |] eqn:Hsmtp.
  - intros [= <-]. split_and!; try done.
    + by exists body, e.
    + unfold new_records. cbn [sent_titles set_trace set_sends].
      rewrite filter_cons, decide_True by done. done.
  - destruct (save _ _ _) as [[[] | e] s2]; done.
Qed.


End ProcessCounts.

Lemma failed_dispatch_is_retried_witness :
  new_records
    (sent_titles (snd (_send_to_speaker PyStr.of_nat smtp_first_fails
                         alice_talk false state_new))) [alice_talk]
  = [alice_talk].
Proof.
  apply (failed_dispatch_is_retried PyStr.of_nat smtp_first_fails alice_talk
           false state_new).
  vm_compute. reflexivity.
Defined.


Lemma summary_counts_every_record_witness :
  ∃ evs : list Event,
    trace (snd (_process_speakers PyStr.of_nat smtp_first_fails
                  [alice_talk; bob_talk] false state_new)) =
      trace state_new ++ evs
      ++ summary_lines (2 - failed_sends evs) (failed_sends evs)
    ∧ (failed_sends evs ≤ 2)%nat.
Proof.
  apply (summary_counts_every_record PyStr.of_nat smtp_first_fails
           [alice_talk; bob_talk] false state_new).
  vm_compute. reflexivity.
Defined.

Lemma pause_after_all_but_last_witness :
  ∃ evs : list Event,
    trace (snd (_process_speakers_loop PyStr.of_nat smtp_first_fails 2 false 1
                  [alice_talk; bob_talk] 0 0 state_new)) =
      trace state_new ++ evs
    ∧ pauses evs = 1%nat.
Proof.
  apply (pause_after_all_but_last PyStr.of_nat smtp_first_fails
           [alice_talk; bob_talk] false state_new _ (1, 1)%nat).
  vm_compute. reflexivity.
Defined.

Lemma successful_sends_are_persisted_witness :
  persisted "Async Patterns"
    (snd (_process_speakers PyStr.of_nat smtp_first_fails
            [alice_talk; bob_talk] false state_new)).
Proof.
  destruct (successful_sends_are_persisted PyStr.of_nat smtp_first_fails
              [alice_talk; bob_talk] false state_new
              (snd (_process_speakers PyStr.of_nat smtp_first_fails
                      [alice_talk; bob_talk] false state_new)))
    as (evs & Htr & _ & _ & Hsent).
  - reflexivity.
  - vm_compute. reflexivity.
  - vm_compute in Htr. subst evs.
    eapply (Hsent bob_talk). repeat (first [left; reflexivity | right]).
Defined.

(** ** Runs *)

Section RunCases.

Variable now : nat → string.
Variable smtp : nat → Speaker → string → option string.
Variable spreadsheet : string → Result (list CsvParser.Row).
Variable keyboard : string.
Variable exn_text : exn → string.

Ltac mrun_keep :=
  repeat (rewrite run_bind;
          unfold mret, M_ret, gets, modify, emit, log_info, log_error,
                 lift, raise;
          cbn -[String.append PyStr.of_nat PySet.mem filter _process_speakers
                PyStr.lower PyStr.strip String.eqb]).

Ltac mstate_keep :=
  unfold set_trace, set_file, set_data, set_sent_titles, set_clock, set_sends;
  cbn -[String.append PyStr.of_nat PySet.mem filter _process_speakers
        PyStr.lower PyStr.strip String.eqb];
  rewrite <- ?app_assoc;
  cbn -[String.append PyStr.of_nat PySet.mem filter _process_speakers
        PyStr.lower PyStr.strip String.eqb].

Lemma run_valid (c : EmailConfig) (dry_run : bool) (s : State) :
  validate c = [] →
  run now smtp spreadsheet keyboard exn_text c dry_run s =
  let s0 := set_trace (trace s ++ [start_line; Download (sheet_url c)]) s in
  let fail := λ (e : exn) (st : State),
    (Raise e, set_trace (trace st ++ [campaign_error (exn_text e)]) st) in
  let finish := λ (p : Result unit * State),
    match p with
    | (Ok _, st) => (Ok tt, st)
    | (Raise e, st) => fail e st
    end in
  match spreadsheet (sheet_url c) with
  | Raise e => fail e s0
  | Ok rows =>
      match CsvParser.parse rows with
      | Raise e => fail e s0
      | Ok speakers =>
          let new := new_records (sent_titles s) speakers in
          let s1 := set_trace
                      (trace s0 ++ stats_lines (length speakers) (length new)
                                     (length (sent_titles s))) s0 in
          match new with
          | [] =>
              (Ok tt,
               set_trace
                 (trace s1 ++ [Log INFO "Nenhuma nova comunicação para enviar!"])
                 s1)
          | _ :: _ =>
              if dry_run then
                finish (_process_speakers now smtp new true s1)
              else
                let s2 := set_trace (trace s1 ++ prompt_lines (length new)) s1 in
                if accepted keyboard then
                  finish (_process_speakers now smtp new false s2)
                else (Ok tt, s2)
          end
      end
  end.
Proof.
  intros Hv. unfold run. rewrite Hv. mrun_keep. unfold try_except. mrun_keep.
  destruct (spreadsheet (sheet_url c)) as [rows | e]; mrun_keep; [| by mstate].
  destruct (CsvParser.parse rows) as [speakers | e]; mrun_keep; [| by mstate].
  unfold _filter_new_speakers, display_stats. mrun_keep.
  fold (new_records (sent_titles s) speakers).
  destruct (new_records (sent_titles s) speakers) as [| sp new] eqn:Hnew;
    mrun_keep; [by mstate |].
  destruct dry_run; mrun_keep.
  - mstate_keep.
    destruct (_process_speakers now smtp (sp :: new) true _) as [[[] | e] st];
      mrun_keep; by mstate_keep.
  - unfold _confirm_send. mrun_keep. fold (accepted keyboard).
    destruct (accepted keyboard); mrun_keep; mstate_keep; [| done].
    destruct (_process_speakers now smtp (sp :: new) false _) as [[[] | e] st];
      mrun_keep; by mstate_keep.
Qed.

Lemma new_records_nil (titles : PySet.t) (speakers : list Speaker) :
  Forall (λ sp, PySet.mem (JStr (title sp)) titles = true) speakers →
  new_records titles speakers = [].
Proof.
  unfold new_records. induction 1 as [| sp speakers Hsp _ IH]; [done |].
  rewrite filter_cons, IH. destruct (decide _) as [Hd |]; [| done].
  by rewrite Hsp in Hd.
Qed.

Lemma new_records_In (titles : PySet.t) (speakers : list Speaker)
    (sp : Speaker) :
  In sp (new_records titles speakers) →
  In sp speakers ∧ PySet.mem (JStr (title sp)) titles = false.
Proof.
  unfold new_records. rewrite <- list_elem_of_In, list_elem_of_filter.
  intros [? ?]. by rewrite <- list_elem_of_In.
Qed.

Lemma process_dry (speakers : list Speaker) (s : State) :
  ∃ evs : list Event,
    _process_speakers now smtp speakers true s =
      (Ok tt, set_trace (trace s ++ evs) s)
    ∧ Forall log_or_render evs.
Proof.
  unfold _process_speakers. rewrite run_bind.
  destruct (loop_dry now smtp (length speakers) speakers 1 0 0 s)
    as (evs & -> & Hevs).
  rewrite display_summary_run.
  eexists (evs ++ [_; _; _; _]). mstate. split; [done |].
  apply Forall_app. split; [done | by repeat constructor].
Qed.

Lemma process_sends (speakers : list Speaker) (dry_run : bool)
    (s s' : State) (r : Result unit) :
  _process_speakers now smtp speakers dry_run s = (r, s') →
  ∃ evs : list Event,
    trace s' = trace s ++ evs
    ∧ ∀ sp b ok, In (Send sp b ok) evs →
        In sp speakers
        ∧ PySet.mem (JStr (title sp)) (sent_titles s) = false.
Proof.
  unfold _process_speakers. rewrite run_bind.
  destruct (_process_speakers_loop _ _ _ _ _ _ _ _ _) as [rc s1] eqn:Hloop.
  apply loop_spec in Hloop
    as (blocks & Htr & Hlen & _ & Hblk & _ & _ & Hunseen & _).
  assert (Hin : ∀ sp b ok, In (Send sp b ok) (concat blocks) →
            In sp speakers
            ∧ PySet.mem (JStr (title sp)) (sent_titles s) = false).
  { intros sp b ok Hsend. split; [| by eapply Hunseen].
    apply in_concat in Hsend as (blk & Hb & Hsend).
    apply list_elem_of_In, list_elem_of_lookup in Hb as [k Hk].
    apply list_elem_of_In in Hsend.
    destruct (lookup_lt_is_Some_2 speakers k) as [sp0 Hsp0].
    { apply lookup_lt_Some in Hk. lia. }
    destruct (Hblk k sp0 blk Hsp0 Hk) as (evs & -> & Habout).
    apply elem_of_cons in Hsend as [Hsend | Hsend]; [done |].
    rewrite Forall_forall in Habout. apply Habout in Hsend. cbn in Hsend.
    subst sp0. apply list_elem_of_In. by eapply list_elem_of_lookup_2. }
  destruct rc as [c | e].
  - rewrite display_summary_run. intros [= <- <-].
    eexists (concat blocks ++ [_; _; _; _]). cbn [trace set_trace].
    split; [by rewrite Htr, app_assoc |].
    intros sp b ok Hsend. apply in_app_or in Hsend as [Hsend | Hsend].
    + by eapply Hin.
    + repeat (destruct Hsend as [Hsend | Hsend]; [done |]). done.
  - intros [= <- <-]. by exists (concat blocks).
Qed.

Lemma lower_is_s (x : string) :
  PyStr.lower x = "s" ↔ x = "s" ∨ x = "S".
Proof.
  split.
  - destruct x as [| a [| a' x']]; [done | | done].
    destruct a as [[] [] [] [] [] [] [] []]; vm_compute; intros [=]; auto.
  - by intros [-> | ->].
Qed.

(** X18. With a setting missing, [run] logs its opening line and one
    error line for each message of [validate], in their order, downloads
    nothing and returns without raising, in either mode. *)
Theorem run_stops_on_incomplete_settings (c : EmailConfig) (dry_run : bool)
    (s : State) :
  validate c ≠ [] →
  run now smtp spreadsheet keyboard exn_text c dry_run s =
  (Ok tt,
   set_trace
     (trace s ++ start_line :: map (λ e, Log ERROR ("❌ " +:+ e)) (validate c))
     s).
Proof.
  intros Hv. unfold run.
  destruct (validate c) as [| e errors] eqn:Hval; [done |].
  mrun. rewrite log_errors_run. by mstate.
Qed.

(** X19. When the download raises, [run] logs one line
    "Erro na campanha: ..." with the text of the exception and raises the
    same exception; nothing else has happened since the opening line, in
    either mode. *)
Theorem run_reraises_after_logging (c : EmailConfig) (dry_run : bool)
    (s : State) (e : exn) :
  validate c = [] →
  spreadsheet (sheet_url c) = Raise e →
  run now smtp spreadsheet keyboard exn_text c dry_run s =
  (Raise e,
   set_trace
     (trace s ++ [start_line; Download (sheet_url c);
                  campaign_error (exn_text e)]) s).
Proof.
  intros Hv He. rewrite run_valid by done. rewrite He. by mstate.
Qed.

(** X20. When every record of the spreadsheet has its title in the
    manager's set, [run] shows the statistics with zero pending, logs
    that there is nothing new and returns: it does not prompt, in either
    mode. *)
Theorem run_with_nothing_new (c : EmailConfig) (dry_run : bool) (s : State)
    (rows : list CsvParser.Row) (speakers : list Speaker) :
  validate c = [] →
  spreadsheet (sheet_url c) = Ok rows →
  CsvParser.parse rows = Ok speakers →
  Forall (λ sp, PySet.mem (JStr (title sp)) (sent_titles s) = true) speakers →
  run now smtp spreadsheet keyboard exn_text c dry_run s =
  (Ok tt,
   set_trace
     (trace s ++ [start_line; Download (sheet_url c)]
      ++ stats_lines (length speakers) 0 (length (sent_titles s))
      ++ [Log INFO "Nenhuma nova comunicação para enviar!"]) s).
Proof.
  intros Hv Hrows Hsp Hall. rewrite run_valid by done.
  rewrite Hrows, Hsp, (new_records_nil _ _ Hall). by mstate.
Qed.

(** X21. A live run whose prompt is not answered with "s" or "S" is
    harmless: whatever the configuration and the spreadsheet, it makes
    no dispatch, no [save], no write of the history file and no pause,
    and the state after it is the state before it with a longer trace. *)
Theorem declined_run_is_harmless (c : EmailConfig) (s : State) :
  accepted keyboard = false →
  ∃ (r : Result unit) (evs : list Event),
    run now smtp spreadsheet keyboard exn_text c false s =
      (r, set_trace (trace s ++ evs) s)
    ∧ Forall harmless evs.
Proof.
  intros Hno.
  destruct (validate c) as [| e0 errors] eqn:Hv.
  2: { unfold run. rewrite Hv. mrun. rewrite log_errors_run.
       do 2 eexists. mstate. split; [done |].
       do 2 (constructor; [done |]). apply List.Forall_forall.
       intros x Hx. apply in_map_iff in Hx as (y & <- & _). exact I. }
  rewrite run_valid by done. rewrite Hno.
  destruct (spreadsheet (sheet_url c)) as [rows | e].
  2: { do 2 eexists. mstate. split; [done | by repeat constructor]. }
  destruct (CsvParser.parse rows) as [speakers | e].
  2: { do 2 eexists. mstate. split; [done | by repeat constructor]. }
  cbv zeta.
  destruct (new_records (sent_titles s) speakers) as [| sp new];
    do 2 eexists; mstate; (split; [done | by repeat constructor]).
Qed.

(** X22. A run in test mode leaves the history alone, whatever the
    configuration, the spreadsheet and the history: its events are log
    lines, the download and renderings; it never prompts, dispatches,
    saves, writes the history file or pauses, and the state after it is
    the state before it with a longer trace. *)
Theorem dry_run_only_reads (c : EmailConfig) (s : State) :
  ∃ (r : Result unit) (evs : list Event),
    run now smtp spreadsheet keyboard exn_text c true s =
      (r, set_trace (trace s ++ evs) s)
    ∧ Forall read_only evs.
Proof.
  destruct (validate c) as [| e0 errors] eqn:Hv.
  2: { unfold run. rewrite Hv. mrun. rewrite log_errors_run.
       do 2 eexists. mstate. split; [done |].
       do 2 (constructor; [done |]). apply List.Forall_forall.
       intros x Hx. apply in_map_iff in Hx as (y & <- & _). exact I. }
  rewrite run_valid by done.
  destruct (spreadsheet (sheet_url c)) as [rows | e].
  2: { do 2 eexists. mstate. split; [done | by repeat constructor]. }
  destruct (CsvParser.parse rows) as [speakers | e].
  2: { do 2 eexists. mstate. split; [done | by repeat constructor]. }
  cbv zeta.
  destruct (new_records (sent_titles s) speakers) as [| sp new].
  { do 2 eexists. mstate. split; [done | by repeat constructor]. }
  edestruct (process_dry (sp :: new)) as (evs & -> & Hevs).
  exists (Ok tt). eexists (_ :: _ :: _ :: _ :: _ :: evs). mstate.
  split; [done |].
  do 5 (constructor; [done |]).
  eapply Forall_impl; [exact Hevs |]. by intros [].
Qed.

(** X23. Every dispatch of a live run follows an accepted prompt and is
    for a record parsed from the downloaded rows whose title was not in
    the manager's set when the run started. *)
Theorem live_run_dispatches_new_records (c : EmailConfig) (s s' : State)
    (r : Result unit) :
  run now smtp spreadsheet keyboard exn_text c false s = (r, s') →
  ∃ evs : list Event,
    trace s' = trace s ++ evs
    ∧ ∀ (sp : Speaker) (b : string) (ok : bool),
        In (Send sp b ok) evs →
        accepted keyboard = true
        ∧ PySet.mem (JStr (title sp)) (sent_titles s) = false
        ∧ ∃ (rows : list CsvParser.Row) (speakers : list Speaker),
            spreadsheet (sheet_url c) = Ok rows
            ∧ CsvParser.parse rows = Ok speakers
            ∧ In sp speakers.
Proof.
  destruct (validate c) as [| e0 errors] eqn:Hv.
  2: { unfold run. rewrite Hv. mrun. rewrite log_errors_run.
       intros [= <- <-]. eexists. cbn [trace set_trace].
       rewrite <- !app_assoc. split; [done |].
       intros sp b ok Hin. do 2 (destruct Hin as [Hin | Hin]; [done |]).
       by apply in_map_iff in Hin as (y & ? & _). }
  rewrite run_valid by done.
  destruct (spreadsheet (sheet_url c)) as [rows | e].
  2: { intros [= <- <-]. eexists. cbn [trace set_trace]. rewrite <- ?app_assoc.
       split; [done |].
       intros sp b ok Hin.
       repeat (destruct Hin as [Hin | Hin]; [done |]). done. }
  destruct (CsvParser.parse rows) as [speakers | e] eqn:Hparse.
  2: { intros [= <- <-]. eexists. cbn [trace set_trace]. rewrite <- ?app_assoc.
       split; [done |].
       intros sp b ok Hin.
       repeat (destruct Hin as [Hin | Hin]; [done |]). done. }
  cbv zeta.
  destruct (new_records (sent_titles s) speakers) as [| sp0 new] eqn:Hnew.
  { intros [= <- <-]. eexists. cbn [trace set_trace].
    rewrite <- ?app_assoc. split; [done |].
    intros sp b ok Hin.
    repeat (destruct Hin as [Hin | Hin]; [done |]). done. }
  destruct (accepted keyboard) eqn:Hyes.
  2: { intros [= <- <-]. eexists. cbn [trace set_trace].
       rewrite <- !app_assoc. split; [done |].
       intros sp b ok Hin.
       repeat (destruct Hin as [Hin | Hin]; [done |]). done. }
  destruct (_process_speakers _ _ _ _ _) as [r1 s1] eqn:Hproc.
  apply process_sends in Hproc as (evs & Htr & Hsends).
  cbn [trace set_trace sent_titles] in Htr, Hsends.
  rewrite <- !app_assoc in Htr.
  assert (Hmain : ∀ sp b ok, In (Send sp b ok) evs →
            true = true
            ∧ PySet.mem (JStr (title sp)) (sent_titles s) = false
            ∧ ∃ rows0 speakers0,
                Ok rows = Ok rows0 ∧ CsvParser.parse rows0 = Ok speakers0
                ∧ In sp speakers0).
  { intros sp b ok Hin. apply Hsends in Hin as [Hin Hun].
    split; [done |]. split; [done |].
    exists rows, speakers. split; [done |]. split; [done |].
    rewrite <- Hnew in Hin. by apply new_records_In in Hin as [? _]. }
  destruct r1 as [[] | e]; intros [= <- <-].
  - eexists. split; [exact Htr |].
    intros sp b ok Hin.
    repeat (destruct Hin as [Hin | Hin]; [done |]).
    by eapply Hmain.
  - eexists. cbn [trace set_trace]. rewrite Htr, <- !app_assoc.
    split; [done |].
    intros sp b ok Hin.
    repeat (destruct Hin as [Hin | Hin]; [done |]).
    cbn [app] in Hin.
    apply in_app_or in Hin as [Hin | Hin]; [by eapply Hmain |].
    by destruct Hin as [Hin | []].
Qed.

End RunCases.

Lemma run_stops_on_incomplete_settings_witness :
  run PyStr.of_nat smtp_accepts sheet_alice "s" exn_words config_no_password
    false state_new =
  (Ok tt,
   set_trace
     [start_line;
      Log ERROR "❌ Senha do remetente (GMAIL_APP_PASSWORD) não configurada"]
     state_new).
Proof.
  apply (run_stops_on_incomplete_settings PyStr.of_nat smtp_accepts
           sheet_alice "s" exn_words config_no_password false state_new).
  vm_compute. discriminate.
Defined.

Lemma run_reraises_after_logging_witness :
  run PyStr.of_nat smtp_accepts sheet_unreachable "s" exn_words config_ok
    false state_new =
  (Raise DownloadError,
   set_trace [start_line; Download (sheet_url config_ok);
              campaign_error "falha"] state_new).
Proof.
  apply (run_reraises_after_logging PyStr.of_nat smtp_accepts
           sheet_unreachable "s" exn_words config_ok false state_new);
    reflexivity.
Defined.

Lemma run_with_nothing_new_witness :
  run PyStr.of_nat smtp_accepts sheet_alice "s" exn_words config_ok false
    state_seen =
  (Ok tt,
   set_trace
     ([start_line; Download (sheet_url config_ok)]
      ++ stats_lines 2 0 1
      ++ [Log INFO "Nenhuma nova comunicação para enviar!"]) state_seen).
Proof.
  apply (run_with_nothing_new PyStr.of_nat smtp_accepts sheet_alice "s"
           exn_words config_ok false state_seen [row_alice]
           [alice_talk; alice_second]).
  - reflexivity.
  - reflexivity.
  - vm_compute. reflexivity.
  - repeat constructor.
Defined.

Lemma declined_run_is_harmless_witness :
  ∃ (r : Result unit) (evs : list Event),
    run PyStr.of_nat smtp_accepts sheet_alice "" exn_words config_ok false
      state_new = (r, set_trace (trace state_new ++ evs) state_new)
    ∧ Forall harmless evs.
Proof.
  apply (declined_run_is_harmless PyStr.of_nat smtp_accepts sheet_alice ""
           exn_words config_ok state_new).
  reflexivity.
Defined.

Lemma live_run_dispatches_new_records_witness :
  ∃ evs : list Event,
    trace (snd (run PyStr.of_nat smtp_accepts sheet_alice " S " exn_words
                  config_ok false state_new)) = trace state_new ++ evs
    ∧ In (Send alice_talk (message alice_talk) true) evs.
Proof.
  destruct (live_run_dispatches_new_records PyStr.of_nat smtp_accepts
              sheet_alice " S " exn_words config_ok state_new
              (snd (run PyStr.of_nat smtp_accepts sheet_alice " S " exn_words
                      config_ok false state_new))
              (Ok tt)) as (evs & Htr & _).
  - vm_compute. reflexivity.
  - exists evs. split; [exact Htr |].
    vm_compute in Htr. subst evs.
    repeat (first [left; reflexivity | right]).
Defined.

(** X24. [_confirm_send] prints its warning, reads one answer and
    returns; it takes exactly the answers that are "s" or "S" once the
    surrounding white space is removed, and every other answer, the
    empty one included, declines. *)
Theorem confirm_accepts_s_only (keyboard : string) (count : nat) (s : State) :
  ∃ answer : bool,
    _confirm_send keyboard count s =
      (Ok answer, set_trace (trace s ++ prompt_lines count) s)
    ∧ (answer = true ↔
       PyStr.strip keyboard = "s" ∨ PyStr.strip keyboard = "S").
Proof.
  unfold _confirm_send. mrun. eexists. mstate. split; [done |].
  rewrite String.eqb_eq. apply lower_is_s.
Qed.
